(** * ToluStock: the stock ledger engine

    A shallow embedding of [src/logic/stock_logic.py] (class [StockManager]),
    of the parts of [src/logic/db.py], [src/logic/user.py] and
    [src/logic/utils.py] it calls, and the properties of the product /
    movement ledger proved about them.

    Conventions of the embedding.
    - A Python [str] holding user text is a list of Unicode code points
      ([str]); identifiers written in the program text (column names,
      permission names, roles, movement types) are [string].
    - Python [int] and SQLite INTEGER are [Z]; values beyond 64 bits are
      outside the model ([sqlite3] refuses to bind such a parameter: the
      statement raises, which is a case of the oracle below).  A REAL column
      holds a binary64 [float]; a NaN is bound as NULL.
    - The rows of [products] are typed as the schema declares them, NULL
      being [None].  An integer bound to the REAL column is converted, as
      the column affinity has it.  A parameter of any other Python type than
      its column (SQLite would convert it, or store it as it is) cannot be
      held by such a row; the model stops the statement with
      [MismatchError], and the statements below about a successful UPDATE
      are for parameters of the column's type.
    - Arithmetic inside a statement is SQLite's: a difference of integers
      that does not fit in 64 bits is computed in binary64.
    - A table with an INTEGER PRIMARY KEY AUTOINCREMENT is a [gmap] from the
      key to the row, together with the largest key handed out so far; the
      append-only movement table is a list, oldest row first.
    - Every [db.execute_*] call opens a connection, runs one statement and
      commits.  A statement may raise; which statements do is given by the
      oracle [db_fails] of the call context, whatever the reason (a locked
      file, a full disk, a parameter that cannot be bound).  What was
      committed before an exception stays committed.
    - Each method body is wrapped in the source's [try ... except Exception]. *)

From stdpp Require Import base option list gmap strings sorting numbers.
From Stdlib Require Import PrimFloat SpecFloat FloatOps.

Open Scope Z_scope.

(** ** Python values *)

Abbreviation str := (list N).

(** A string literal of the program text, as code points. *)
Definition py (s : string) : str :=
  Ascii.N_of_ascii <$> String.list_ascii_of_string s.

(** The part of the Unicode character database that [str.isalnum] and
    [str.upper] consult.  [upper_full] is the full upper-case mapping of one
    code point, which may be several code points long. *)
Class Unicode := {
  isalnum : N → bool;
  upper_full : N → list N
}.

(** [str.upper()]: every code point is replaced by its full mapping. *)
Definition upper `{Unicode} (s : str) : str := s ≫= upper_full.

(** Truthiness of the Python values that the engine tests with [if]. *)
Definition truthy_str (s : str) : bool :=
  match s with [] => false | _ => true end.

Definition truthy_opt_str (s : option str) : bool :=
  match s with Some s => truthy_str s | None => false end.

Definition truthy_opt_int (z : option Z) : bool :=
  match z with Some z => negb (z =? 0) | None => false end.

Inductive PyVal :=
  | PyNone
  | PyInt (z : Z)
  | PyFloat (f : float)
  | PyStr (s : str).

(** [datetime.now()], the fields that [strftime("%m%d%H%M")] prints. *)
Record datetime := {
  month : N;
  day : N;
  hour : N;
  minute : N
}.

Definition two_digits (n : N) : str :=
  [(48 + (n / 10) `mod` 10)%N; (48 + n `mod` 10)%N].

Definition strftime_mdHM (t : datetime) : str :=
  two_digits (month t) ++ two_digits (day t) ++
  two_digits (hour t) ++ two_digits (minute t).

(** ** utils.generate_sku *)

Definition generate_sku `{Unicode} (now : datetime)
    (product_name category : str) : str :=
  let category_prefix :=
    if truthy_str category then upper (take 3 category) else py "GEN" in
  let product_prefix := upper (filter (λ c, isalnum c = true) (take 4 product_name)) in
  let timestamp := strftime_mdHM now in
  category_prefix ++ py "-" ++ product_prefix ++ py "-" ++ timestamp.

(** ** user.UserManager *)

Record User := {
  user_ident : Z;
  role : string
}.

Definition user_permissions : gset string :=
  list_to_set ["view_stock"; "view_customers"; "view_suppliers";
               "view_reports"; "export_data"]%string.

Definition manager_permissions : gset string :=
  user_permissions ∪
  list_to_set ["add_stock"; "edit_stock"; "delete_stock";
               "add_customers"; "edit_customers"; "delete_customers";
               "add_suppliers"; "edit_suppliers"; "delete_suppliers";
               "backup_data"; "manage_settings"]%string.

(** ** The database *)

Record Category := {
  cat_name : str;
  cat_description : option str
}.

Record Supplier := {
  sup_name : str
}.

Record Product := {
  name : str;
  category_id : option Z;
  sku : option str;
  description : option str;
  unit_price : float;
  quantity : Z;
  min_stock_level : option Z;
  supplier_id : option Z;
  created_at : str;
  updated_at : str
}.

Record Movement := {
  mv_id : Z;
  product_id : Z;
  movement_type : string;
  mv_quantity : Z;
  reference_id : option str;
  notes : option str;
  user_id : option Z;
  mv_created_at : str
}.

Record Store := {
  categories : gmap Z Category;
  suppliers : gmap Z Supplier;
  products : gmap Z Product;
  products_seq : Z;
  stock_movements : list Movement;
  stock_movements_seq : Z
}.

Definition with_products (m : gmap Z Product) (st : Store) : Store :=
  {| categories := categories st; suppliers := suppliers st;
     products := m; products_seq := products_seq st;
     stock_movements := stock_movements st;
     stock_movements_seq := stock_movements_seq st |}.

Definition with_product_inserted (i : Z) (p : Product) (st : Store) : Store :=
  {| categories := categories st; suppliers := suppliers st;
     products := <[i := p]> (products st); products_seq := i;
     stock_movements := stock_movements st;
     stock_movements_seq := stock_movements_seq st |}.

Definition with_movement_appended (m : Movement) (st : Store) : Store :=
  {| categories := categories st; suppliers := suppliers st;
     products := products st; products_seq := products_seq st;
     stock_movements := stock_movements st ++ [m];
     stock_movements_seq := mv_id m |}.

(** The statements the engine sends, as far as the fault oracle tells them
    apart. *)
Inductive Stmt :=
  | SelectCategoryName
  | SelectProductById
  | SelectProductBySku
  | InsertProduct
  | InsertMovement
  | UpdateProduct
  | UpdateQuantity
  | CountMovements
  | DeleteProduct
  | SelectLowStock.

(** What a call sees of its surroundings: the logged-in user, the wall
    clock, SQLite's CURRENT_TIMESTAMP text and the statements that raise. *)
Record Ctx := {
  current_user : option User;
  now : datetime;
  current_timestamp : str;
  db_fails : Stmt → bool
}.

Definition get_current_user (c : Ctx) : option User := current_user c.

Definition has_permission (c : Ctx) (permission : string) : bool :=
  match current_user c with
  | None => false
  | Some u =>
      if decide (role u = "admin"%string) then true
      else if decide (role u = "manager"%string)
           then bool_decide (permission ∈ manager_permissions)
      else if decide (role u = "user"%string)
           then bool_decide (permission ∈ user_permissions)
      else false
  end.

(** *** Exceptions and the statement monad *)

Inductive Exn :=
  | OperationalError   (* the statement could not run: locked, disk, ... *)
  | IntegrityError     (* NOT NULL or UNIQUE violated *)
  | MismatchError.     (* a bound value of another type than the column;
                          the typed rows cannot hold it *)

Inductive Result (A : Type) :=
  | Ok (a : A)
  | Raise (e : Exn).
Arguments Ok {A} a.
Arguments Raise {A} e.

Global Instance Result_ret : MRet Result := λ A a, Ok a.
Global Instance Result_bind : MBind Result := λ A B f r,
  match r with Ok a => f a | Raise e => Raise e end.

Definition DB (A : Type) : Type := Store → Result A * Store.

Global Instance DB_ret : MRet DB := λ A a st, (Ok a, st).
Global Instance DB_bind : MBind DB := λ A B f m st,
  match m st with
  | (Ok a, st') => f a st'
  | (Raise e, st') => (Raise e, st')
  end.

Definition raise {A} (e : Exn) : DB A := λ st, (Raise e, st).

(** [try: body except Exception: return default] *)
Definition try_except {A} (body : DB A) (default : A) : DB A := λ st,
  match body st with
  | (Ok a, st') => (Ok a, st')
  | (Raise _, st') => (Ok default, st')
  end.

(** One [db.execute_*] call: the statement either raises before it has any
    effect, or runs. *)
Definition execute {A} (c : Ctx) (s : Stmt) (body : DB A) : DB A := λ st,
  if db_fails c s then (Raise OperationalError, st) else body st.

(** *** Columns of [products] *)

Definition set_name (v : str) (p : Product) : Product :=
  Build_Product v (category_id p) (sku p) (description p) (unit_price p)
    (quantity p) (min_stock_level p) (supplier_id p) (created_at p) (updated_at p).
Definition set_category_id (v : option Z) (p : Product) : Product :=
  Build_Product (name p) v (sku p) (description p) (unit_price p)
    (quantity p) (min_stock_level p) (supplier_id p) (created_at p) (updated_at p).
Definition set_sku (v : option str) (p : Product) : Product :=
  Build_Product (name p) (category_id p) v (description p) (unit_price p)
    (quantity p) (min_stock_level p) (supplier_id p) (created_at p) (updated_at p).
Definition set_description (v : option str) (p : Product) : Product :=
  Build_Product (name p) (category_id p) (sku p) v (unit_price p)
    (quantity p) (min_stock_level p) (supplier_id p) (created_at p) (updated_at p).
Definition set_unit_price (v : float) (p : Product) : Product :=
  Build_Product (name p) (category_id p) (sku p) (description p) v
    (quantity p) (min_stock_level p) (supplier_id p) (created_at p) (updated_at p).
Definition set_quantity (v : Z) (p : Product) : Product :=
  Build_Product (name p) (category_id p) (sku p) (description p) (unit_price p)
    v (min_stock_level p) (supplier_id p) (created_at p) (updated_at p).
Definition set_min_stock_level (v : option Z) (p : Product) : Product :=
  Build_Product (name p) (category_id p) (sku p) (description p) (unit_price p)
    (quantity p) v (supplier_id p) (created_at p) (updated_at p).
Definition set_supplier_id (v : option Z) (p : Product) : Product :=
  Build_Product (name p) (category_id p) (sku p) (description p) (unit_price p)
    (quantity p) (min_stock_level p) v (created_at p) (updated_at p).
Definition set_created_at (v : str) (p : Product) : Product :=
  Build_Product (name p) (category_id p) (sku p) (description p) (unit_price p)
    (quantity p) (min_stock_level p) (supplier_id p) v (updated_at p).
Definition set_updated_at (v : str) (p : Product) : Product :=
  Build_Product (name p) (category_id p) (sku p) (description p) (unit_price p)
    (quantity p) (min_stock_level p) (supplier_id p) (created_at p) v.

(** The binary64 number nearest to an integer (ties to even): C's
    [(double)z], which is how SQLite turns an INTEGER into a REAL. *)
Definition real_of_int (z : Z) : float :=
  SF2Prim (binary_normalize 53 1024 z 0 false).

(** A bound parameter read at the type of the column it goes to.  [None]
    is SQL NULL. *)
Definition as_text (v : PyVal) : Result (option str) :=
  match v with
  | PyNone => Ok None
  | PyStr s => Ok (Some s)
  | _ => Raise MismatchError
  end.

Definition as_integer (v : PyVal) : Result (option Z) :=
  match v with
  | PyNone => Ok None
  | PyInt z => Ok (Some z)
  | _ => Raise MismatchError
  end.

(** A REAL column: an integer is converted (the column affinity), and a
    NaN arrives as NULL ([sqlite3_bind_double] has no NaN). *)
Definition as_real (v : PyVal) : Result (option float) :=
  match v with
  | PyNone => Ok None
  | PyFloat f => Ok (if is_nan f then None else Some f)
  | PyInt z => Ok (Some (real_of_int z))
  | PyStr _ => Raise MismatchError
  end.

Definition not_null {A} (r : Result (option A)) : Result A :=
  o ← r; match o with Some a => Ok a | None => Raise IntegrityError end.

(** [SET col = v] on one row of [products], with the NOT NULL constraints
    of the schema.  Every column of the table but the key can be assigned;
    a column the table does not have is an error of the statement. *)
Definition set_column (col : string) (v : PyVal) (p : Product) : Result Product :=
  if decide (col = "name"%string) then
    s ← not_null (as_text v); mret (set_name s p)
  else if decide (col = "category_id"%string) then
    z ← as_integer v; mret (set_category_id z p)
  else if decide (col = "sku"%string) then
    s ← as_text v; mret (set_sku s p)
  else if decide (col = "description"%string) then
    s ← as_text v; mret (set_description s p)
  else if decide (col = "unit_price"%string) then
    f ← not_null (as_real v); mret (set_unit_price f p)
  else if decide (col = "quantity"%string) then
    z ← not_null (as_integer v); mret (set_quantity z p)
  else if decide (col = "min_stock_level"%string) then
    z ← as_integer v; mret (set_min_stock_level z p)
  else if decide (col = "supplier_id"%string) then
    z ← as_integer v; mret (set_supplier_id z p)
  else if decide (col = "created_at"%string) then
    s ← not_null (as_text v); mret (set_created_at s p)
  else if decide (col = "updated_at"%string) then
    s ← not_null (as_text v); mret (set_updated_at s p)
  else Raise OperationalError.

(** The right-hand side of an assignment: a [?] with its bound value, or
    the keyword CURRENT_TIMESTAMP. *)
Inductive SqlExpr :=
  | Param (v : PyVal)
  | CURRENT_TIMESTAMP.

Definition eval (c : Ctx) (e : SqlExpr) : PyVal :=
  match e with
  | Param v => v
  | CURRENT_TIMESTAMP => PyStr (current_timestamp c)
  end.

(** The SET list, left to right (of a column named twice the rightmost
    assignment is the one that stays). *)
Fixpoint apply_set (c : Ctx) (sets : list (string * SqlExpr)) (p : Product)
    : Result Product :=
  match sets with
  | [] => Ok p
  | (col, e) :: rest => p' ← set_column col (eval c e) p; apply_set c rest p'
  end.

(** UNIQUE on [sku]: a row other than [skip] already holds this value
    (NULLs never clash). *)
Definition sku_conflict (m : gmap Z Product) (skip : option Z) (s : option str) : Prop :=
  match s with
  | None => False
  | Some v => map_Exists (λ j q, Some j ≠ skip ∧ sku q = Some v) m
  end.

Global Instance sku_conflict_dec m skip s : Decision (sku_conflict m skip s).
Proof. destruct s; simpl; apply _. Defined.

(** *** The statements *)

(** A row of [SELECT p.*, c.name as category_name, s.name as supplier_name
    FROM products p LEFT JOIN categories c ... LEFT JOIN suppliers s ...]. *)
Record ProductRow := {
  row_id : Z;
  row : Product;
  category_name : option str;
  supplier_name : option str
}.

Definition joined (st : Store) (ip : Z * Product) : ProductRow :=
  {| row_id := ip.1;
     row := ip.2;
     category_name := c ← category_id ip.2; cat_name <$> categories st !! c;
     supplier_name := s ← supplier_id ip.2; sup_name <$> suppliers st !! s |}.

(** [SELECT name FROM categories WHERE id = ?] *)
Definition select_category_name (c : Ctx) (cid : Z) : DB (list str) :=
  execute c SelectCategoryName (λ st,
    (Ok (match categories st !! cid with Some k => [cat_name k] | None => [] end), st)).

(** [SELECT ... WHERE p.id = ?] *)
Definition select_product_by_id (c : Ctx) (i : Z) : DB (list ProductRow) :=
  execute c SelectProductById (λ st,
    (Ok (match products st !! i with Some p => [joined st (i, p)] | None => [] end), st)).

(** [SELECT ... WHERE p.sku = ?] *)
Definition select_product_by_sku (c : Ctx) (s : str) : DB (list ProductRow) :=
  execute c SelectProductBySku (λ st,
    (Ok (joined st <$> filter (λ ip, sku ip.2 = Some s) (map_to_list (products st))), st)).

(** [INSERT INTO products (...) VALUES (?, ?, ?, ?, ?, ?, ?, ?)]; both
    timestamps default to CURRENT_TIMESTAMP.  Returns [lastrowid].  A NaN
    price is bound as NULL, which NOT NULL on [unit_price] refuses. *)
Definition insert_product (c : Ctx) (name : str) (category_id : option Z)
    (sku : option str) (description : option str) (unit_price : float)
    (quantity : Z) (min_stock_level : option Z) (supplier_id : option Z) : DB Z :=
  execute c InsertProduct (λ st,
    let i := products_seq st + 1 in
    if is_nan unit_price then (Raise IntegrityError, st)
    else if decide (sku_conflict (products st) None sku) then (Raise IntegrityError, st)
    else
      let p := Build_Product name category_id sku description unit_price quantity
                 min_stock_level supplier_id (current_timestamp c) (current_timestamp c) in
      (Ok i, with_product_inserted i p st)).

(** [INSERT INTO stock_movements (...) VALUES (?, ?, ?, ?, ?, ?)].
    Foreign keys are not enforced (the connection never turns them on). *)
Definition insert_movement (c : Ctx) (product_id : Z) (movement_type : string)
    (quantity : Z) (reference_id notes : option str) (user_id : option Z) : DB Z :=
  execute c InsertMovement (λ st,
    let i := stock_movements_seq st + 1 in
    let m := Build_Movement i product_id movement_type quantity reference_id notes
               user_id (current_timestamp c) in
    (Ok i, with_movement_appended m st)).

(** [UPDATE products SET ... WHERE id = ?].  Returns [rowcount].  The
    UNIQUE index on [sku] is consulted when the statement assigns [sku]. *)
Definition update_products (c : Ctx) (s : Stmt) (sets : list (string * SqlExpr))
    (i : Z) : DB Z :=
  execute c s (λ st,
    match products st !! i with
    | None => (Ok 0, st)
    | Some p =>
        match apply_set c sets p with
        | Raise e => (Raise e, st)
        | Ok p' =>
            if decide ("sku"%string ∈ sets.*1
                       ∧ sku_conflict (products st) (Some i) (sku p'))
            then (Raise IntegrityError, st)
            else (Ok 1, with_products (<[i := p']> (products st)) st)
        end
    end).

(** [SELECT COUNT( * ) as count FROM stock_movements WHERE product_id = ?] *)
Definition count_movements (c : Ctx) (i : Z) : DB (list Z) :=
  execute c CountMovements (λ st,
    (Ok [Z.of_nat (length (filter (λ m, product_id m = i) (stock_movements st)))], st)).

(** [DELETE FROM products WHERE id = ?].  Returns [rowcount]. *)
Definition delete_products (c : Ctx) (i : Z) : DB Z :=
  execute c DeleteProduct (λ st,
    match products st !! i with
    | None => (Ok 0, st)
    | Some _ => (Ok 1, with_products (delete i (products st)) st)
    end).

(** Text in BINARY collation compares as its UTF-8 bytes do, which is the
    lexicographic order of the code points. *)
Fixpoint str_leb (a b : str) : bool :=
  match a, b with
  | [], _ => true
  | _ :: _, [] => false
  | x :: a', y :: b' =>
      if (x <? y)%N then true
      else if (x =? y)%N then str_leb a' b'
      else false
  end.

(** [WHERE p.quantity <= p.min_stock_level]: a comparison with NULL is not
    true. *)
Definition where_low (p : Product) : bool :=
  match min_stock_level p with
  | Some m => bool_decide (quantity p ≤ m)
  | None => false
  end.

(** The value of a binary64 number that is an integer, and the value of
    [(double)z]. *)
Definition binary64 (z : Z) : Z :=
  match binary_normalize 53 1024 z 0 false with
  | S754_finite s m e => (if s then -1 else 1) * Z.shiftl (Z.pos m) e
  | _ => 0
  end.

(** [a - b] on two INTEGER values: the exact difference when it fits in 64
    bits; otherwise SQLite converts both operands to REAL and subtracts in
    binary64.  Both cases are given by their numeric value, which is what
    ORDER BY compares (an INTEGER and a REAL of the same value are equal
    keys). *)
Definition sqlite_sub (a b : Z) : Z :=
  if bool_decide (- 2 ^ 63 ≤ a - b < 2 ^ 63) then a - b
  else binary64 (binary64 a - binary64 b).

(** [(p.quantity - p.min_stock_level)], NULL when the level is. *)
Definition shortage (p : Product) : option Z :=
  m ← min_stock_level p; Some (sqlite_sub (quantity p) m).

(** Ascending order of a numeric sort key: NULL first. *)
Definition key_ltb (a b : option Z) : bool :=
  match a, b with
  | None, Some _ => true
  | Some x, Some y => bool_decide (x < y)
  | _, _ => false
  end.

(** [ORDER BY (p.quantity - p.min_stock_level) ASC, p.name] *)
Definition order_by_leb (a b : ProductRow) : bool :=
  key_ltb (shortage (row a)) (shortage (row b))
  || (bool_decide (shortage (row a) = shortage (row b))
      && str_leb (name (row a)) (name (row b))).

Definition order_by (a b : ProductRow) : Prop := order_by_leb a b = true.

Global Instance order_by_dec a b : Decision (order_by a b).
Proof. unfold order_by. apply _. Defined.

Definition select_low_stock (c : Ctx) : DB (list ProductRow) :=
  execute c SelectLowStock (λ st,
    (Ok (merge_sort order_by
           (joined st <$> filter (λ ip, where_low ip.2 = true)
                            (map_to_list (products st)))), st)).

(** ** stock_logic.StockManager *)

Definition get_product_by_id (c : Ctx) (product_id : Z) : DB (option ProductRow) :=
  try_except
    (products ← select_product_by_id c product_id;
     mret (head products))
    None.

Definition get_product_by_sku (c : Ctx) (sku : str) : DB (option ProductRow) :=
  try_except
    (products ← select_product_by_sku c sku;
     mret (head products))
    None.

Definition record_stock_movement (c : Ctx) (product_id : Z)
    (movement_type : string) (quantity : Z) (reference_id notes : option str)
    : DB (option Z) :=
  try_except
    (let user_id := get_current_user c in
     let user_id := user_ident <$> user_id in
     movement_id ← insert_movement c product_id movement_type quantity
                     reference_id notes user_id;
     mret (Some movement_id))
    None.

(** The SKU that [add_product] goes on with: the one given, or a generated
    one when [sku] is [None] or empty. *)
Definition resolve_sku `{Unicode} (c : Ctx) (name : str) (category_id : option Z)
    (sku : option str) : DB str :=
  if negb (truthy_opt_str sku) then
    category_name ←
      (if truthy_opt_int category_id then
         categories ← select_category_name c (default 0 category_id);
         mret (match categories with r :: _ => r | [] => [] end)
       else mret []);
    mret (generate_sku (now c) name category_name)
  else mret (default [] sku).

Definition add_product `{Unicode} (c : Ctx) (name : str) (category_id : option Z)
    (description : option str) (unit_price : float) (quantity : Z)
    (min_stock_level : Z) (supplier_id : option Z) (sku : option str)
    : DB (option Z) :=
  try_except
    (if negb (has_permission c "add_stock") then mret None
     else
       sku ← resolve_sku c name category_id sku;
       existing ← get_product_by_sku c sku;
       if existing is Some _ then mret None
       else
         product_id ← insert_product c name category_id (Some sku) description
                        unit_price quantity (Some min_stock_level) supplier_id;
         _ ← (if bool_decide (0 < quantity) then
                record_stock_movement c product_id "in" quantity
                  (Some (py "Initial stock")) (Some (py "Initial inventory"))
              else mret None);
         mret (Some product_id))
    None.

Definition valid_fields : list string :=
  ["name"; "category_id"; "sku"; "description"; "unit_price";
   "min_stock_level"; "supplier_id"]%string.

(** [kwargs] is the keyword dictionary in the order of its items. *)
Definition update_product (c : Ctx) (product_id : Z)
    (kwargs : list (string * PyVal)) : DB bool :=
  try_except
    (if negb (has_permission c "edit_stock") then mret false
     else
       let updates :=
         (λ fv, (fv.1, Param fv.2)) <$> filter (λ fv, fv.1 ∈ valid_fields) kwargs in
       match updates with
       | [] => mret false
       | _ =>
           let updates := updates ++ [("updated_at"%string, CURRENT_TIMESTAMP)] in
           rows_affected ← update_products c UpdateProduct updates product_id;
           mret (bool_decide (0 < rows_affected))
       end)
    false.

Definition delete_product (c : Ctx) (product_id : Z) : DB bool :=
  try_except
    (if negb (has_permission c "delete_stock") then mret false
     else
       movements ← count_movements c product_id;
       if match movements with n :: _ => bool_decide (0 < n) | [] => false end
       then mret false
       else
         rows_affected ← delete_products c product_id;
         mret (bool_decide (0 < rows_affected)))
    false.

Definition adjust_stock (c : Ctx) (product_id : Z) (new_quantity : Z)
    (reason : option str) : DB bool :=
  try_except
    (if negb (has_permission c "edit_stock") then mret false
     else
       product ← get_product_by_id c product_id;
       match product with
       | None => mret false
       | Some product =>
           let current_quantity := quantity (row product) in
           let difference := new_quantity - current_quantity in
           if decide (difference = 0) then mret true
           else
             rows_affected ←
               update_products c UpdateQuantity
                 [("quantity"%string, Param (PyInt new_quantity));
                  ("updated_at"%string, CURRENT_TIMESTAMP)]
                 product_id;
             if bool_decide (0 < rows_affected) then
               let movement_type : string :=
                 if bool_decide (0 < difference) then "in" else "out" in
               _ ← record_stock_movement c product_id movement_type
                     (Z.abs difference) (Some (py "adjustment"))
                     (Some (if truthy_opt_str reason then default [] reason
                            else py "Stock adjustment"));
               mret true
             else mret false
       end)
    false.

Definition get_low_stock_products (c : Ctx) : DB (list ProductRow) :=
  try_except (select_low_stock c) [].

(** ** ui.stock.StockAdjustmentDialog

    The engine is called from the dialogs of the user interface.  Of the
    stock adjustment dialog, the handler of its button, from the integer
    that [safe_cast_int] made of the entry on; the callback and the closing
    of the window are left out. *)

Inductive messagebox :=
  | showerror (title message : string)
  | showinfo (title message : string).

Definition StockAdjustmentDialog_adjust_stock (c : Ctx) (product_id : Z)
    (new_quantity : Z) (reason notes : str) : Store → messagebox * Store := λ st,
  if bool_decide (new_quantity < 0) then
    (showerror "Error" "Quantity cannot be negative.", st)
  else
    match adjust_stock c product_id new_quantity
            (Some (reason ++ py ": " ++ notes)) st with
    | (Ok true, st') => (showinfo "Success" "Stock adjusted successfully.", st')
    | (_, st') => (showerror "Error" "Failed to adjust stock.", st')
    end.

(** ** Vocabulary of the statements below *)

(** The sum of the quantities of the movements of type [ty] of product [i]. *)
Definition sum_quantities (ty : string) (i : Z) (ms : list Movement) : Z :=
  foldr Z.add 0
    (mv_quantity <$> filter (λ m, product_id m = i ∧ movement_type m = ty) ms).

Definition ledger_net (i : Z) (ms : list Movement) : Z :=
  sum_quantities "in" i ms - sum_quantities "out" i ms.

(** The stored quantity of every product is the net of its movements. *)
Definition ledger_consistent (st : Store) : Prop :=
  ∀ i p, products st !! i = Some p →
    quantity p = ledger_net i (stock_movements st).

(** No key of [products] in use, as a row or in a movement, is beyond the
    AUTOINCREMENT counter. *)
Definition keys_issued (st : Store) : Prop :=
  (∀ i, is_Some (products st !! i) → i ≤ products_seq st)
  ∧ (∀ m, m ∈ stock_movements st → product_id m ≤ products_seq st).

(** The mutating calls of the engine, to speak of sequences of them. *)
Inductive Call :=
  | Call_add_product (name : str) (category_id : option Z)
      (description : option str) (unit_price : float) (quantity : Z)
      (min_stock_level : Z) (supplier_id : option Z) (sku : option str)
  | Call_update_product (product_id : Z) (kwargs : list (string * PyVal))
  | Call_delete_product (product_id : Z)
  | Call_adjust_stock (product_id : Z) (new_quantity : Z) (reason : option str).

Definition perform `{Unicode} (c : Ctx) (call : Call) (st : Store) : Store :=
  match call with
  | Call_add_product n cid d u q m s k => (add_product c n cid d u q m s k st).2
  | Call_update_product i kw => (update_product c i kw st).2
  | Call_delete_product i => (delete_product c i st).2
  | Call_adjust_stock i q r => (adjust_stock c i q r st).2
  end.

Definition perform_all `{Unicode} (calls : list (Ctx * Call)) (st : Store) : Store :=
  foldl (λ st cc, perform cc.1 cc.2 st) st calls.

(** The calls under which the ledger is kept: a product is created with a
    quantity that is not negative, and where a call appends a movement the
    insert into [stock_movements] does not raise. *)
Definition ledger_safe (cc : Ctx * Call) : Prop :=
  match cc.2 with
  | Call_add_product _ _ _ _ q _ _ _ =>
      db_fails cc.1 InsertMovement = false ∧ 0 ≤ q
  | Call_adjust_stock _ _ _ => db_fails cc.1 InsertMovement = false
  | _ => True
  end.

(** The row that [insert_movement] appends. *)
Definition movement_row (c : Ctx) (st : Store) (product_id : Z)
    (movement_type : string) (quantity : Z) (reference_id notes : option str)
    : Movement :=
  Build_Movement (stock_movements_seq st + 1) product_id movement_type quantity
    reference_id notes (user_ident <$> current_user c) (current_timestamp c).

(** The row that [insert_product] stores. *)
Definition product_row (c : Ctx) (name : str) (category_id : option Z)
    (sku : str) (description : option str) (unit_price : float) (quantity : Z)
    (min_stock_level : Z) (supplier_id : option Z) : Product :=
  Build_Product name category_id (Some sku) description unit_price quantity
    (Some min_stock_level) supplier_id (current_timestamp c) (current_timestamp c).

(** What [adjust_stock] writes when the quantity changes: the product row
    and the reconciling movement. *)
Definition adjusted_row (c : Ctx) (new_quantity : Z) (p : Product) : Product :=
  set_updated_at (current_timestamp c) (set_quantity new_quantity p).

Definition adjustment_row (c : Ctx) (st : Store) (product_id : Z)
    (new_quantity : Z) (reason : option str) (p : Product) : Movement :=
  movement_row c st product_id
    (if bool_decide (0 < new_quantity - quantity p) then "in" else "out")
    (Z.abs (new_quantity - quantity p))
    (Some (py "adjustment"))
    (Some (if truthy_opt_str reason then default [] reason
           else py "Stock adjustment")).

(** The value of a column of a product row, as Python reads it. *)
Definition of_opt {A} (f : A → PyVal) (o : option A) : PyVal :=
  match o with Some a => f a | None => PyNone end.

Definition get_column (col : string) (p : Product) : PyVal :=
  if decide (col = "name"%string) then PyStr (name p)
  else if decide (col = "category_id"%string) then of_opt PyInt (category_id p)
  else if decide (col = "sku"%string) then of_opt PyStr (sku p)
  else if decide (col = "description"%string) then of_opt PyStr (description p)
  else if decide (col = "unit_price"%string) then PyFloat (unit_price p)
  else if decide (col = "quantity"%string) then PyInt (quantity p)
  else if decide (col = "min_stock_level"%string) then of_opt PyInt (min_stock_level p)
  else if decide (col = "supplier_id"%string) then of_opt PyInt (supplier_id p)
  else if decide (col = "created_at"%string) then PyStr (created_at p)
  else if decide (col = "updated_at"%string) then PyStr (updated_at p)
  else PyNone.

(** The SET list that [update_product] sends. *)
Definition update_sets (kwargs : list (string * PyVal)) : list (string * SqlExpr) :=
  ((λ fv, (fv.1, Param fv.2)) <$> filter (λ fv, fv.1 ∈ valid_fields) kwargs)
  ++ [("updated_at"%string, CURRENT_TIMESTAMP)].

(** The integers that [sqlite3] binds. *)
Definition int64 (z : Z) : bool := bool_decide (- 2 ^ 63 ≤ z < 2 ^ 63).

(** The parameters that a column of [products] takes as they are: a value
    of the column's own Python type, an [int] also for the price, or [None]
    where the column may be NULL; no integer beyond 64 bits, and not a NaN. *)
Definition binds (col : string) (v : PyVal) : bool :=
  if decide (col = "name"%string) then
    match v with PyStr _ => true | _ => false end
  else if decide (col = "sku"%string ∨ col = "description"%string) then
    match v with PyNone | PyStr _ => true | _ => false end
  else if decide (col = "unit_price"%string) then
    match v with PyFloat f => negb (is_nan f) | PyInt z => int64 z | _ => false end
  else if decide (col = "category_id"%string ∨ col = "min_stock_level"%string
                  ∨ col = "supplier_id"%string) then
    match v with PyNone => true | PyInt z => int64 z | _ => false end
  else false.

(** What the column then holds: the parameter, an integer price as the
    REAL nearest to it. *)
Definition stored_as (col : string) (v : PyVal) : PyVal :=
  match v with
  | PyInt z => if decide (col = "unit_price"%string) then PyFloat (real_of_int z) else v
  | _ => v
  end.

(** What the engine keeps true of the database. *)
Definition ledger_invariant (st : Store) : Prop :=
  keys_issued st ∧ ledger_consistent st.

(** The rows that the WHERE clause keeps. *)
Definition low_stock_rows (st : Store) : list ProductRow :=
  joined st <$> filter (λ ip, where_low ip.2 = true) (map_to_list (products st)).

(** The order of the listing, spelled out: a row comes before another when
    its [quantity - min_stock_level] is smaller, or equal with a name that
    is not greater. *)
Definition shortage_then_name (a b : ProductRow) : Prop :=
  ∃ ma mb,
    min_stock_level (row a) = Some ma ∧ min_stock_level (row b) = Some mb
    ∧ (quantity (row a) - ma < quantity (row b) - mb
       ∨ (quantity (row a) - ma = quantity (row b) - mb
          ∧ str_leb (name (row a)) (name (row b)) = true)).

(** The order as SQLite evaluates the sort key: as above, with the
    difference that the statement computes. *)
Definition sort_key_then_name (a b : ProductRow) : Prop :=
  ∃ ma mb,
    min_stock_level (row a) = Some ma ∧ min_stock_level (row b) = Some mb
    ∧ (sqlite_sub (quantity (row a)) ma < sqlite_sub (quantity (row b)) mb
       ∨ (sqlite_sub (quantity (row a)) ma = sqlite_sub (quantity (row b)) mb
          ∧ str_leb (name (row a)) (name (row b)) = true)).

(** ** A concrete setting

    Tables that agree with the Unicode database on ASCII and leave every
    other code point alone, a logged-in administrator, and a database as
    [init_database] leaves it. *)

Definition ascii_isalnum (c : N) : bool :=
  ((48 <=? c) && (c <=? 57) || (65 <=? c) && (c <=? 90)
   || (97 <=? c) && (c <=? 122))%N.

Definition ascii_upper_full (c : N) : list N :=
  if ((97 <=? c) && (c <=? 122))%N then [(c - 32)%N] else [c].

Definition ascii_tables : Unicode :=
  {| isalnum := ascii_isalnum; upper_full := ascii_upper_full |}.

Definition no_faults : Stmt → bool := λ _, false.

Definition admin : User := {| user_ident := 1; role := "admin" |}.

Definition clock : datetime := {| month := 3; day := 9; hour := 14; minute := 5 |}.

Definition admin_ctx : Ctx :=
  {| current_user := Some admin; now := clock;
     current_timestamp := py "2024-03-09 13:05:00"; db_fails := no_faults |}.

Definition default_categories : gmap Z Category :=
  list_to_map
    [(1, Build_Category (py "Electronics") (Some (py "Electronic devices and components")));
     (2, Build_Category (py "Clothing") (Some (py "Apparel and accessories")));
     (3, Build_Category (py "Food & Beverages") (Some (py "Food items and drinks")));
     (4, Build_Category (py "Office Supplies") (Some (py "Office equipment and supplies")));
     (5, Build_Category (py "Other") (Some (py "Miscellaneous items")))].

Definition init_database : Store :=
  {| categories := default_categories; suppliers := ∅;
     products := ∅; products_seq := 0;
     stock_movements := []; stock_movements_seq := 0 |}.

(** The same surroundings with another user, or none, logged in. *)
Definition ctx_of (u : option User) : Ctx :=
  {| current_user := u; now := clock;
     current_timestamp := py "2024-03-09 13:05:00"; db_fails := no_faults |}.

(** The administrator again, a minute later, with a movement table that
    cannot be written. *)
Definition failing_insert_ctx : Ctx :=
  {| current_user := Some admin; now := clock;
     current_timestamp := py "2024-03-09 13:06:00";
     db_fails := λ s, if s is InsertMovement then true else false |}.

(** The administrator with a [products] table that cannot be updated. *)
Definition failing_update_ctx : Ctx :=
  {| current_user := Some admin; now := clock;
     current_timestamp := py "2024-03-09 13:06:00";
     db_fails := λ s, if s is UpdateProduct then true else false |}.

(** One product, created with five in stock. *)
Definition one_product : Store :=
  (add_product (H := ascii_tables) admin_ctx (py "Widget") (Some 1) None
     9.5%float 5 2 None None init_database).2.

Definition sample_calls : list (Ctx * Call) :=
  [(admin_ctx, Call_add_product (py "Widget") (Some 1) None 9.5%float 10 5 None None);
   (admin_ctx, Call_adjust_stock 1 3 (Some (py "damage")));
   (admin_ctx, Call_add_product (py "Gadget") None None 2.25%float 0 0 None
                 (Some (py "GAD-1")));
   (admin_ctx, Call_update_product 2 [("name"%string, PyStr (py "Gizmo"))]);
   (admin_ctx, Call_adjust_stock 2 7 None);
   (admin_ctx, Call_delete_product 1)].

Definition stocked (q m : Z) (n : string) : Product :=
  Build_Product (py n) None (Some (py n)) None 1%float q (Some m) None
    (py "2024-03-09 13:05:00") (py "2024-03-09 13:05:00").

(** The four products of the low-stock example. *)
Definition four_products : Store :=
  {| categories := default_categories; suppliers := ∅;
     products := list_to_map [(1, stocked 0 5 "bolt"); (2, stocked 5 5 "nut");
                              (3, stocked 6 5 "washer"); (4, stocked 10 0 "rivet")];
     products_seq := 4;
     stock_movements := []; stock_movements_seq := 0 |}.

(** The row of [one_product]. *)
Definition widget : Product :=
  product_row admin_ctx (py "Widget") (Some 1) (py "ELE-WIDG-03091405") None
    9.5%float 5 2 None.

(** One product, created with nothing in stock and so with no movement. *)
Definition untouched_product : Store :=
  (add_product (H := ascii_tables) admin_ctx (py "Gadget") None None
     2.25%float 0 0 None (Some (py "GAD-1")) init_database).2.

Definition mixed_kwargs : list (string * PyVal) :=
  [("quantity"%string, PyInt 99); ("name"%string, PyStr (py "Gizmo"));
   ("colour"%string, PyStr (py "red"))].

(** A store with one product that was given the SKU W-1. *)
Definition with_w1 : Store :=
  (add_product (H := ascii_tables) admin_ctx (py "Widget") (Some 1) None
     9.5%float 5 2 None (Some (py "W-1")) init_database).2.

(** The widget and a gadget, each with a SKU of its own. *)
Definition two_products : Store :=
  (add_product (H := ascii_tables) admin_ctx (py "Gadget") None None
     2.25%float 0 0 None (Some (py "GAD-1")) with_w1).2.

(** The widget is created with five in stock, then adjusted to eight
    while the movement table cannot be written. *)
Definition lost_movement_calls : list (Ctx * Call) :=
  [(admin_ctx, Call_add_product (py "Widget") (Some 1) None 9.5%float 5 2 None None);
   (failing_insert_ctx, Call_adjust_stock 1 8 None)].

(** Three products at the lower end of the 64-bit range. *)
Definition overflowing_products : Store :=
  {| categories := default_categories; suppliers := ∅;
     products := list_to_map [(1, stocked (- 2 ^ 63) 1 "alpha");
                              (2, stocked (- 2 ^ 63) 2 "beta");
                              (3, stocked (- 2 ^ 63 + 3) 5 "gamma")];
     products_seq := 3;
     stock_movements := []; stock_movements_seq := 0 |}.

(** * Properties *)

(** ** The SKU generator *)

Lemma strftime_mdHM_length t : length (strftime_mdHM t) = 8%nat.
Proof. reflexivity. Qed.

Lemma product_prefix_source (product_name : str) `{Unicode} :
  let cs := filter (λ c, isalnum c = true) (take 4 product_name) in
  cs `sublist_of` product_name
  ∧ (length cs ≤ 4)%nat
  ∧ Forall (λ c, isalnum c = true) cs.
Proof.
  intros cs. split; [|split].
  - transitivity (take 4 product_name).
    + apply sublist_filter.
    + apply sublist_take.
  - pose proof (length_filter (λ c, isalnum c = true) (take 4 product_name)).
    pose proof (length_take product_name 4). subst cs. lia.
  - apply list.Forall_forall. intros c Hc. subst cs.
    apply list_elem_of_filter in Hc. tauto.
Qed.

(** C4.  The generated SKU is PREFIX-BODY-SUFFIX.  PREFIX is the upper-cased
    first three characters of the category name, or GEN when the category
    is empty.  BODY is the upper-casing of at most four alphanumeric
    characters taken from the product name in their order, the other
    characters being dropped: they are the alphanumeric ones among the
    first four characters of the name.  SUFFIX is the eight digits of
    the month, day, hour and minute. *)
Theorem generate_sku_format `{Unicode} (now : datetime) (product_name category : str) :
  ∃ prefix body suffix : str,
    generate_sku now product_name category
      = prefix ++ py "-" ++ body ++ py "-" ++ suffix
    ∧ prefix = (if decide (category = []) then py "GEN" else upper (take 3 category))
    ∧ (∃ cs : str,
         body = upper cs
         ∧ cs = filter (λ c, isalnum c = true) (take 4 product_name)
         ∧ cs `sublist_of` product_name
         ∧ (length cs ≤ 4)%nat
         ∧ Forall (λ c, isalnum c = true) cs)
    ∧ suffix = strftime_mdHM now
    ∧ length suffix = 8%nat.
Proof.
  eexists _, _, _. split; [|split; [|split; [|split]]].
  - unfold generate_sku. reflexivity.
  - destruct category; reflexivity.
  - eexists. split; [reflexivity|]. split; [reflexivity|].
    apply product_prefix_source.
  - reflexivity.
  - apply strftime_mdHM_length.
Qed.

(** ** How the calls run *)

Ltac decompose_list_elem_of :=
  repeat match goal with
    | H : _ ∈ _ :: _ |- _ => apply elem_of_cons in H as [H|H]; [try done|]
    | H : _ ∈ [] |- _ => by apply elem_of_nil in H
    end.

Ltac run_db :=
  unfold try_except, execute, raise, mbind, mret, DB_bind, DB_ret,
    Result_bind, Result_ret in *.

Lemma get_product_by_id_run c i st :
  get_product_by_id c i st
  = (Ok (if db_fails c SelectProductById then None
         else (λ p, joined st (i, p)) <$> products st !! i), st).
Proof.
  unfold get_product_by_id, select_product_by_id. run_db.
  destruct (db_fails c SelectProductById); [done|].
  by destruct (products st !! i).
Qed.

Lemma get_product_by_sku_run c s st :
  get_product_by_sku c s st
  = (Ok (if db_fails c SelectProductBySku then None
         else head (joined st <$>
                filter (λ ip, sku ip.2 = Some s) (map_to_list (products st)))), st).
Proof.
  unfold get_product_by_sku, select_product_by_sku. run_db.
  by destruct (db_fails c SelectProductBySku).
Qed.

Lemma record_stock_movement_run c i ty q ref nt st :
  record_stock_movement c i ty q ref nt st
  = if db_fails c InsertMovement then (Ok None, st)
    else (Ok (Some (stock_movements_seq st + 1)),
          with_movement_appended (movement_row c st i ty q ref nt) st).
Proof.
  unfold record_stock_movement, insert_movement, get_current_user. run_db.
  by destruct (db_fails c InsertMovement).
Qed.

Lemma apply_set_adjust c q p :
  apply_set c [("quantity"%string, Param (PyInt q));
               ("updated_at"%string, CURRENT_TIMESTAMP)] p
  = Ok (adjusted_row c q p).
Proof. reflexivity. Qed.

(** Every way [adjust_stock] can go. *)
Lemma adjust_stock_run c i q r st :
  adjust_stock c i q r st
  = if negb (has_permission c "edit_stock") then (Ok false, st)
    else if db_fails c SelectProductById then (Ok false, st)
    else match products st !! i with
         | None => (Ok false, st)
         | Some p =>
             if decide (q - quantity p = 0) then (Ok true, st)
             else if db_fails c UpdateQuantity then (Ok false, st)
             else
               let st1 := with_products (<[i := adjusted_row c q p]> (products st)) st in
               if db_fails c InsertMovement then (Ok true, st1)
               else (Ok true, with_movement_appended (adjustment_row c st i q r p) st1)
         end.
Proof.
  unfold adjust_stock.
  unfold try_except at 1. unfold mbind at 1, DB_bind at 1.
  destruct (has_permission c "edit_stock"); simpl; [|done].
  unfold mbind at 1, DB_bind at 1. rewrite get_product_by_id_run.
  destruct (db_fails c SelectProductById); [done|].
  destruct (products st !! i) as [p|] eqn:Hp; simpl; [|done].
  destruct (decide (q - quantity p = 0)); [done|].
  unfold mbind at 1, DB_bind at 1. unfold update_products, execute.
  destruct (db_fails c UpdateQuantity); [done|].
  rewrite Hp, apply_set_adjust. rewrite decide_False.
  2:{ intros [Hin _]. simpl in Hin. by decompose_list_elem_of. }
  rewrite bool_decide_eq_true_2 by lia.
  rewrite record_stock_movement_run.
  by destruct (db_fails c InsertMovement).
Qed.

Lemma resolve_sku_store `{Unicode} c n cid k st :
  (resolve_sku c n cid k st).2 = st.
Proof.
  unfold resolve_sku, select_category_name. run_db.
  destruct (truthy_opt_str k); simpl; [done|].
  destruct (truthy_opt_int cid); simpl; [|done].
  by destruct (db_fails c SelectCategoryName).
Qed.

(** Every way [add_product] can go. *)
Lemma add_product_run `{Unicode} c n cid d u q m s k st :
  add_product c n cid d u q m s k st
  = if negb (has_permission c "add_stock") then (Ok None, st)
    else match (resolve_sku c n cid k st).1 with
         | Raise _ => (Ok None, st)
         | Ok sku =>
             match (get_product_by_sku c sku st).1 with
             | Ok (Some _) => (Ok None, st)
             | _ =>
                 if db_fails c InsertProduct then (Ok None, st)
                 else if is_nan u then (Ok None, st)
                 else if decide (sku_conflict (products st) None (Some sku))
                      then (Ok None, st)
                 else
                   let i := products_seq st + 1 in
                   let st1 := with_product_inserted i
                                (product_row c n cid sku d u q m s) st in
                   if bool_decide (0 < q) && negb (db_fails c InsertMovement)
                   then (Ok (Some i),
                         with_movement_appended
                           (movement_row c st1 i "in" q (Some (py "Initial stock"))
                              (Some (py "Initial inventory"))) st1)
                   else (Ok (Some i), st1)
             end
         end.
Proof.
  unfold add_product.
  unfold try_except at 1.
  destruct (has_permission c "add_stock"); cbn [negb]; [|done].
  unfold mbind at 1, DB_bind at 1.
  pose proof (resolve_sku_store c n cid k st) as Hst.
  destruct (resolve_sku c n cid k st) as [[sku'|e] st0]; cbn [fst snd] in *;
    subst st0; [|done].
  unfold mbind at 1, DB_bind at 1.
  rewrite get_product_by_sku_run. cbn [fst].
  set (existing := if db_fails c SelectProductBySku then None else _).
  destruct existing; [done|].
  unfold mbind at 1, DB_bind at 1, insert_product, execute.
  destruct (db_fails c InsertProduct); [done|].
  destruct (is_nan u); [done|].
  destruct (decide (sku_conflict (products st) None (Some sku'))); [done|].
  unfold mbind at 1, DB_bind at 1.
  destruct (bool_decide (0 < q)); cbn [andb]; [|done].
  rewrite record_stock_movement_run.
  by destruct (db_fails c InsertMovement).
Qed.

(** Every way [update_product] can go. *)
Lemma update_product_run c i kwargs st :
  update_product c i kwargs st
  = if negb (has_permission c "edit_stock") then (Ok false, st)
    else match filter (λ fv, fv.1 ∈ valid_fields) kwargs with
         | [] => (Ok false, st)
         | _ =>
             if db_fails c UpdateProduct then (Ok false, st)
             else match products st !! i with
                  | None => (Ok false, st)
                  | Some p =>
                      match apply_set c (update_sets kwargs) p with
                      | Raise _ => (Ok false, st)
                      | Ok p' =>
                          if decide ("sku"%string ∈ (update_sets kwargs).*1
                                     ∧ sku_conflict (products st) (Some i) (sku p'))
                          then (Ok false, st)
                          else (Ok true, with_products (<[i := p']> (products st)) st)
                      end
                  end
         end.
Proof.
  unfold update_product, update_sets, update_products. run_db.
  destruct (has_permission c "edit_stock"); simpl; [|done].
  destruct (filter _ kwargs) as [|fv l]; [done|].
  rewrite fmap_cons.
  destruct (db_fails c UpdateProduct); [done|].
  destruct (products st !! i) as [p|]; [|done].
  destruct (apply_set c _ p) as [p'|]; [|done].
  by destruct (decide _).
Qed.

(** Every way [delete_product] can go. *)
Lemma delete_product_run c i st :
  delete_product c i st
  = if negb (has_permission c "delete_stock") then (Ok false, st)
    else if db_fails c CountMovements then (Ok false, st)
    else if bool_decide
              (0 < Z.of_nat (length (filter (λ m, product_id m = i)
                                       (stock_movements st))))
         then (Ok false, st)
    else if db_fails c DeleteProduct then (Ok false, st)
    else match products st !! i with
         | None => (Ok false, st)
         | Some _ => (Ok true, with_products (delete i (products st)) st)
         end.
Proof.
  unfold delete_product, count_movements, delete_products. run_db.
  destruct (has_permission c "delete_stock"); simpl; [|done].
  destruct (db_fails c CountMovements); [done|].
  destruct (bool_decide _); [done|].
  destruct (db_fails c DeleteProduct); [done|].
  by destruct (products st !! i).
Qed.

(** ** SKU uniqueness *)

Lemma select_by_sku_finds (st : Store) i p s :
  products st !! i = Some p → sku p = Some s →
  is_Some (head (joined st <$>
             filter (λ ip, sku ip.2 = Some s) (map_to_list (products st)))).
Proof.
  intros Hi Hs.
  assert ((i, p) ∈ filter (λ ip : Z * Product, sku ip.2 = Some s)
                     (map_to_list (products st))) as Hin.
  { apply list_elem_of_filter. split; [done|]. by apply elem_of_map_to_list. }
  destruct (filter _ _); [by apply elem_of_nil in Hin|]. by eexists.
Qed.

(** A product that holds the SKU makes [add_product] return [None] and
    write nothing, whoever calls and whatever statement fails. *)
Lemma add_product_sku_in_use `{Unicode} c n cid d u q m s k st i p sku' :
  products st !! i = Some p → sku p = Some sku' →
  (resolve_sku c n cid k st).1 = Ok sku' →
  add_product c n cid d u q m s k st = (Ok None, st).
Proof.
  intros Hi Hs Hr. rewrite add_product_run, Hr.
  destruct (negb _); [done|].
  rewrite get_product_by_sku_run. cbn [fst].
  destruct (db_fails c SelectProductBySku).
  - destruct (db_fails c InsertProduct); [done|]. destruct (is_nan u); [done|].
    rewrite decide_True; [done|].
    exists i, p. split; [done|]. by split.
  - by destruct (select_by_sku_finds st i p sku' Hi Hs) as [r ->].
Qed.

(** What a successful [add_product] has written. *)
Lemma add_product_created `{Unicode} c n cid d u q m s k st i st' :
  add_product c n cid d u q m s k st = (Ok (Some i), st') →
  ∃ sku', (resolve_sku c n cid k st).1 = Ok sku'
    ∧ i = products_seq st + 1
    ∧ products st' = <[i := product_row c n cid sku' d u q m s]> (products st)
    ∧ products_seq st' = i.
Proof.
  rewrite add_product_run.
  destruct (negb _); [done|].
  destruct (resolve_sku c n cid k st).1 as [sku'|]; [|done].
  intros Hrun. exists sku'. split; [done|].
  destruct (get_product_by_sku c sku' st).1 as [[r|]|];
    try done;
    (destruct (db_fails c InsertProduct); [done|]);
    (destruct (is_nan u); [done|]);
    (destruct (decide _); [done|]);
    cbn zeta in Hrun;
    (destruct (_ && _); inversion Hrun; by subst).
Qed.

Lemma add_product_returns `{Unicode} c n cid d u q m s k st :
  (add_product c n cid d u q m s k st).1 = Ok None
  ∨ (add_product c n cid d u q m s k st).1 = Ok (Some (products_seq st + 1)).
Proof.
  rewrite add_product_run. destruct (negb _); [by left|].
  destruct (resolve_sku c n cid k st).1 as [sku'|]; [|by left].
  destruct (get_product_by_sku c sku' st).1 as [[r|]|]; [by left| |];
    (destruct (db_fails c InsertProduct); [by left|]);
    (destruct (is_nan u); [by left|]);
    (destruct (decide _); [by left|]);
    cbn zeta; right; by destruct (_ && _).
Qed.

(** C5, as the code has it.  When a product was created and a second
    [add_product] resolves to the same SKU, the second call returns [None],
    writes no row, and the first product stays as it was written.  There
    is no error for a duplicate SKU: no call of [add_product] raises, each
    returns the new id or [None], and [None] is also what a caller without
    the permission gets. *)
Theorem add_product_duplicate_sku `{Unicode}
    c1 n1 cid1 d1 u1 q1 m1 s1 k1 c2 n2 cid2 d2 u2 q2 m2 s2 k2 st0 i st1 sku' :
  add_product c1 n1 cid1 d1 u1 q1 m1 s1 k1 st0 = (Ok (Some i), st1) →
  (resolve_sku c1 n1 cid1 k1 st0).1 = Ok sku' →
  (resolve_sku c2 n2 cid2 k2 st1).1 = Ok sku' →
  add_product c2 n2 cid2 d2 u2 q2 m2 s2 k2 st1 = (Ok None, st1)
  ∧ products st1 !! i = Some (product_row c1 n1 cid1 sku' d1 u1 q1 m1 s1)
  ∧ (∀ c n cid d u q m s k st,
       (add_product c n cid d u q m s k st).1 = Ok None
       ∨ ∃ j, (add_product c n cid d u q m s k st).1 = Ok (Some j))
  ∧ (∀ c n cid d u q m s k st,
       has_permission c "add_stock" = false →
       add_product c n cid d u q m s k st = (Ok None, st)).
Proof.
  intros Hfirst Hsku1 Hsku2.
  destruct (add_product_created _ _ _ _ _ _ _ _ _ _ _ _ Hfirst)
    as (sku1 & Hr & -> & Hprod & _).
  rewrite Hsku1 in Hr. injection Hr as <-.
  assert (products st1 !! (products_seq st0 + 1)
          = Some (product_row c1 n1 cid1 sku' d1 u1 q1 m1 s1)) as Hrow
    by (rewrite Hprod; apply lookup_insert_eq).
  split; [by eapply add_product_sku_in_use|]. split; [done|]. split.
  - intros c n cid d u q m s k st.
    destruct (add_product_returns c n cid d u q m s k st); eauto.
  - intros c n cid d u q m s k st Hperm. by rewrite add_product_run, Hperm.
Qed.

(** ** Adjusting to the current quantity *)

(** C6.  [adjust_stock] with the quantity the product already has returns
    [True] and leaves the whole database as it was: no movement row is
    added and the product row, [updated_at] included, is the same.  Since
    the state is the same, repeating the call gives the same again. *)
Theorem adjust_stock_same_quantity c st i p reason :
  products st !! i = Some p →
  has_permission c "edit_stock" = true →
  db_fails c SelectProductById = false →
  adjust_stock c i (quantity p) reason st = (Ok true, st)
  ∧ stock_movements (adjust_stock c i (quantity p) reason st).2 = stock_movements st
  ∧ products (adjust_stock c i (quantity p) reason st).2 !! i = Some p
  ∧ adjust_stock c i (quantity p) reason (adjust_stock c i (quantity p) reason st).2
    = adjust_stock c i (quantity p) reason st.
Proof.
  intros Hp Hperm Hdb.
  assert (adjust_stock c i (quantity p) reason st = (Ok true, st)) as Hrun.
  { rewrite adjust_stock_run, Hperm, Hdb, Hp. cbn [negb].
    by rewrite decide_True by lia. }
  rewrite !Hrun. cbn [snd]. by rewrite Hrun.
Qed.

(** ** The delete guard *)

(** C7.  A product with a movement row is not deleted: [delete_product]
    returns [False] and the database is unchanged.  A product with no
    movement row is removed from [products] and the call returns [True]
    (for a caller with the permission and statements that run). *)
Theorem delete_product_guard c st i :
  ((∃ m, m ∈ stock_movements st ∧ product_id m = i) →
   delete_product c i st = (Ok false, st))
  ∧ ((∀ m, m ∈ stock_movements st → product_id m ≠ i) →
     is_Some (products st !! i) →
     has_permission c "delete_stock" = true →
     db_fails c CountMovements = false →
     db_fails c DeleteProduct = false →
     delete_product c i st = (Ok true, with_products (delete i (products st)) st)
     ∧ products (delete_product c i st).2 !! i = None).
Proof.
  split.
  - intros (m & Hm & Hi). rewrite delete_product_run.
    destruct (negb _); [done|]. destruct (db_fails c CountMovements); [done|].
    rewrite bool_decide_eq_true_2; [done|].
    assert (m ∈ filter (λ m, product_id m = i) (stock_movements st)) as Hin
      by (by apply list_elem_of_filter).
    destruct (filter _ _); [by apply elem_of_nil in Hin|]. simpl. lia.
  - intros Hnone [p Hp] Hperm Hcount Hdel.
    assert (filter (λ m, product_id m = i) (stock_movements st) = []) as Hf.
    { destruct (filter _ _) as [|m l] eqn:Hl; [done|].
      assert (m ∈ m :: l) as Hin by left.
      rewrite <- Hl in Hin. apply list_elem_of_filter in Hin as [Hi Hin].
      by destruct (Hnone m Hin). }
    rewrite delete_product_run, Hperm, Hcount, Hdel, Hf, Hp. cbn.
    split; [done|]. apply lookup_delete_eq.
Qed.

(** ** Columns that an UPDATE leaves alone *)

Lemma set_column_frame col v p p' col' :
  set_column col v p = Ok p' → col' ≠ col →
  get_column col' p' = get_column col' p.
Proof.
  unfold set_column. intros Hset Hne.
  repeat case_decide; try done; subst col;
    destruct v as [|z|f|s];
    cbv [mbind mret Result_bind Result_ret not_null as_text as_integer as_real]
      in Hset;
    try (destruct (is_nan f); cbv beta iota in Hset);
    try done; injection Hset as <-;
    unfold get_column; repeat case_decide; by simplify_eq.
Qed.

Lemma apply_set_frame c sets p p' col' :
  apply_set c sets p = Ok p' → col' ∉ sets.*1 →
  get_column col' p' = get_column col' p.
Proof.
  revert p. induction sets as [|[col e] sets IH]; intros p Hset Hnot.
  - by injection Hset as <-.
  - simpl in Hset.
    destruct (set_column col (eval c e) p) as [p1|] eqn:Hcol; [|done].
    simpl in Hset. rewrite fmap_cons in Hnot.
    apply not_elem_of_cons in Hnot as [Hne Hnot].
    rewrite (IH p1 Hset Hnot). by eapply set_column_frame.
Qed.

Lemma update_sets_columns kwargs col :
  col ∈ (update_sets kwargs).*1 → col ∈ valid_fields ∨ col = "updated_at"%string.
Proof.
  unfold update_sets. rewrite fmap_app, elem_of_app. intros [Hin|Hin].
  - left. rewrite <- list_fmap_compose in Hin.
    apply list_elem_of_fmap in Hin as (fv & -> & Hfv).
    by apply list_elem_of_filter in Hfv as [? _].
  - right. simpl in Hin. by decompose_list_elem_of.
Qed.

Lemma quantity_column p p' :
  get_column "quantity" p' = get_column "quantity" p → quantity p' = quantity p.
Proof. intros Heq. by injection Heq. Qed.

Lemma update_sets_keep_quantity c kwargs p p' :
  apply_set c (update_sets kwargs) p = Ok p' → quantity p' = quantity p.
Proof.
  intros Hset. apply quantity_column. eapply apply_set_frame; [done|].
  intros [Hin| ?]%update_sets_columns; [|done].
  unfold valid_fields in Hin. by decompose_list_elem_of.
Qed.
(** ** The ledger invariant *)

Lemma sum_quantities_snoc ty i ms m :
  sum_quantities ty i (ms ++ [m])
  = sum_quantities ty i ms
    + (if decide (product_id m = i ∧ movement_type m = ty) then mv_quantity m else 0).
Proof.
  unfold sum_quantities. rewrite list.filter_app, fmap_app, foldr_app.
  rewrite filter_cons, filter_nil.
  assert (∀ (l : list Z) a, foldr Z.add a l = foldr Z.add 0 l + a) as Hfold.
  { induction l as [|x l IH]; intros a; simpl; [lia|]. rewrite IH. lia. }
  rewrite Hfold. destruct (decide _); simpl; lia.
Qed.

Lemma ledger_net_snoc i ms m :
  ledger_net i (ms ++ [m])
  = ledger_net i ms
    + (if decide (product_id m = i) then
         if decide (movement_type m = "in"%string) then mv_quantity m
         else if decide (movement_type m = "out"%string) then - mv_quantity m
         else 0
       else 0).
Proof.
  unfold ledger_net. rewrite !sum_quantities_snoc.
  repeat case_decide; try lia; exfalso; intuition congruence.
Qed.

Lemma ledger_net_fresh i ms :
  (∀ m, m ∈ ms → product_id m ≠ i) → ledger_net i ms = 0.
Proof.
  intros Hfresh. unfold ledger_net, sum_quantities.
  assert (∀ ty, filter (λ m, product_id m = i ∧ movement_type m = ty) ms = []) as Hf.
  { intros ty. destruct (filter _ ms) as [|m l] eqn:Hl; [done|].
    assert (m ∈ m :: l) as Hin by left.
    rewrite <- Hl in Hin. apply list_elem_of_filter in Hin as [[Hi _] Hin].
    by destruct (Hfresh m Hin). }
  by rewrite !Hf.
Qed.

Lemma adjustment_row_net c st i q r p ms :
  ledger_net i (ms ++ [adjustment_row c st i q r p])
  = ledger_net i ms + (q - quantity p).
Proof.
  rewrite ledger_net_snoc. unfold adjustment_row, movement_row. simpl.
  rewrite decide_True by done.
  destruct (bool_decide (0 < q - quantity p)) eqn:Hd.
  - apply bool_decide_eq_true_1 in Hd. rewrite decide_True by done. lia.
  - apply bool_decide_eq_false_1 in Hd.
    rewrite decide_False by done. rewrite decide_True by done. lia.
Qed.

Lemma adjust_stock_keeps_ledger c i q r st :
  db_fails c InsertMovement = false →
  ledger_invariant st → ledger_invariant (adjust_stock c i q r st).2.
Proof.
  intros Hdb [[Hkp Hkm] Hled]. rewrite adjust_stock_run, Hdb.
  destruct (negb _); [done|]. destruct (db_fails c SelectProductById); [done|].
  destruct (products st !! i) as [p|] eqn:Hp; [|done].
  destruct (decide _) as [|Hne]; [done|].
  destruct (db_fails c UpdateQuantity); [done|]. cbn.
  split; [split|].
  - intros j. cbn. rewrite lookup_insert. destruct (decide _); [subst|by auto].
    intros _. apply Hkp. by rewrite Hp.
  - intros m. cbn. rewrite elem_of_app, list_elem_of_singleton.
    intros [Hm| ->]; [by auto|]. cbn. apply Hkp. by rewrite Hp.
  - intros j pj. cbn. rewrite lookup_insert. destruct (decide _) as [Hj|Hj].
    + subst j. intros [= <-]. rewrite adjustment_row_net.
      rewrite <- (Hled i p Hp). cbn. lia.
    + intros Hpj. rewrite ledger_net_snoc, decide_False by (cbn; congruence).
      rewrite (Hled j pj Hpj). lia.
Qed.

Lemma add_product_keeps_ledger `{Unicode} c n cid d u q m s k st :
  db_fails c InsertMovement = false → 0 ≤ q →
  ledger_invariant st → ledger_invariant (add_product c n cid d u q m s k st).2.
Proof.
  intros Hdb Hq [[Hkp Hkm] Hled]. rewrite add_product_run, Hdb.
  destruct (negb _); [done|].
  destruct (resolve_sku c n cid k st).1 as [sku'|]; [|done].
  assert (∀ mv, mv ∈ stock_movements st → product_id mv ≠ products_seq st + 1)
    as Hfresh by (intros mv Hmv%Hkm; lia).
  assert (products st !! (products_seq st + 1) = None) as Hnew.
  { destruct (products st !! _) eqn:Hl; [|done].
    assert (products_seq st + 1 ≤ products_seq st); [|lia].
    apply Hkp. by rewrite Hl. }
  assert (ledger_invariant
    (let i := products_seq st + 1 in
     let st1 := with_product_inserted i (product_row c n cid sku' d u q m s) st in
     if bool_decide (0 < q) && negb false
     then with_movement_appended
            (movement_row c st1 i "in" q (Some (py "Initial stock"))
               (Some (py "Initial inventory"))) st1
     else st1)) as Hgoal.
  { cbn zeta. destruct (bool_decide (0 < q)) eqn:Hpos; cbn [andb negb].
    - split; [split|].
      + intros j. cbn. rewrite lookup_insert. destruct (decide _); [intros; lia|].
        intros Hj%Hkp. lia.
      + intros mv. cbn. rewrite elem_of_app, list_elem_of_singleton.
        intros [Hmv%Hkm| ->]; cbn; lia.
      + intros j pj. cbn. rewrite lookup_insert. destruct (decide _) as [Hj|Hj].
        * subst j. intros [= <-]. rewrite ledger_net_snoc. cbn.
          rewrite decide_True by done. rewrite decide_True by done.
          rewrite ledger_net_fresh by done. lia.
        * intros Hpj. rewrite ledger_net_snoc, decide_False by (cbn; congruence).
          rewrite (Hled j pj Hpj). lia.
    - apply bool_decide_eq_false_1 in Hpos.
      split; [split|].
      + intros j. cbn. rewrite lookup_insert. destruct (decide _); [intros; lia|].
        intros Hj%Hkp. lia.
      + intros mv. cbn. intros Hmv%Hkm. lia.
      + intros j pj. cbn. rewrite lookup_insert. destruct (decide _) as [Hj|Hj].
        * subst j. intros [= <-]. rewrite ledger_net_fresh by done. cbn. lia.
        * intros Hpj. by apply Hled. }
  destruct (get_product_by_sku c sku' st).1 as [[r|]|]; [done| |];
    (destruct (db_fails c InsertProduct); [done|]);
    (destruct (is_nan u); [done|]);
    (destruct (decide _); [done|]);
    cbn zeta in *; by destruct (_ && _).
Qed.

Lemma update_product_keeps_ledger c i kwargs st :
  ledger_invariant st → ledger_invariant (update_product c i kwargs st).2.
Proof.
  intros [[Hkp Hkm] Hled]. rewrite update_product_run.
  destruct (negb _); [done|]. destruct (filter _ kwargs) as [|fv l]; [done|].
  destruct (db_fails c UpdateProduct); [done|].
  destruct (products st !! i) as [p|] eqn:Hp; [|done].
  destruct (apply_set c _ p) as [p'|] eqn:Hset; [|done].
  destruct (decide _); [done|]. cbn.
  split; [split|].
  - intros j. cbn. rewrite lookup_insert. destruct (decide _); [subst|by auto].
    intros _. apply Hkp. by rewrite Hp.
  - done.
  - intros j pj. cbn. rewrite lookup_insert. destruct (decide _) as [Hj|Hj].
    + subst j. intros [= <-].
      rewrite (update_sets_keep_quantity _ _ _ _ Hset). by apply Hled.
    + by apply Hled.
Qed.

Lemma delete_product_keeps_ledger c i st :
  ledger_invariant st → ledger_invariant (delete_product c i st).2.
Proof.
  intros [[Hkp Hkm] Hled]. rewrite delete_product_run.
  destruct (negb _); [done|]. destruct (db_fails c CountMovements); [done|].
  destruct (bool_decide _); [done|]. destruct (db_fails c DeleteProduct); [done|].
  destruct (products st !! i) as [p|] eqn:Hp; [|done]. cbn.
  split; [split|].
  - intros j. cbn. rewrite lookup_delete. destruct (decide _); [by intros [? ?]|by auto].
  - done.
  - intros j pj. cbn. rewrite lookup_delete. destruct (decide _); [done|]. by apply Hled.
Qed.

Lemma perform_keeps_ledger `{Unicode} c call st :
  ledger_safe (c, call) →
  ledger_invariant st → ledger_invariant (perform c call st).
Proof.
  intros Hsafe Hinv. destruct call; cbn in *.
  - destruct Hsafe as [Hdb Hq]. by apply add_product_keeps_ledger.
  - by apply update_product_keeps_ledger.
  - by apply delete_product_keeps_ledger.
  - by apply adjust_stock_keeps_ledger.
Qed.

(** C1, as the code has it.  Starting from a database whose quantities
    agree with its ledger and whose product ids are not beyond the
    counter (a new database has no product and no movement), every
    sequence of [add_product] with a quantity that is not negative,
    [adjust_stock], [update_product] and [delete_product] in which no
    insert into [stock_movements] raises leaves the quantity of every
    product equal to the sum of its "in" movements minus the sum of its
    "out" movements.  An insert that raises breaks this: when
    [adjust_stock] changes a quantity and its movement insert raises, the
    call returns [True], the new quantity is stored, and the movements of
    the product still add up to the old one. *)
Theorem quantity_is_ledger_net `{Unicode} :
  (∀ (calls : list (Ctx * Call)) (st0 : Store),
     keys_issued st0 →
     ledger_consistent st0 →
     Forall ledger_safe calls →
     ∀ i p, products (perform_all calls st0) !! i = Some p →
       quantity p
       = sum_quantities "in" i (stock_movements (perform_all calls st0))
         - sum_quantities "out" i (stock_movements (perform_all calls st0)))
  ∧ (∀ c i q r st p,
       ledger_consistent st →
       products st !! i = Some p →
       q ≠ quantity p →
       has_permission c "edit_stock" = true →
       db_fails c SelectProductById = false →
       db_fails c UpdateQuantity = false →
       db_fails c InsertMovement = true →
       (adjust_stock c i q r st).1 = Ok true
       ∧ quantity <$> products (adjust_stock c i q r st).2 !! i = Some q
       ∧ sum_quantities "in" i (stock_movements (adjust_stock c i q r st).2)
         - sum_quantities "out" i (stock_movements (adjust_stock c i q r st).2)
         = quantity p).
Proof.
  split.
  - intros calls st0 Hk Hl Hsafe.
    assert (ledger_invariant (perform_all calls st0)) as [_ Hfinal]; [|exact Hfinal].
    assert (ledger_invariant st0) as Hinv by done. clear Hk Hl.
    revert st0 Hinv. induction Hsafe as [|[c call] calls Hcc _ IH]; intros st0 Hinv.
    + done.
    + cbn. apply IH. by apply perform_keeps_ledger.
  - intros c i q r st p Hled Hp Hne Hperm Hsel Hupd Hins.
    rewrite adjust_stock_run, Hperm, Hsel, Hp, Hupd, Hins. cbn [negb].
    rewrite decide_False by lia. cbn. rewrite lookup_insert_eq.
    split; [done|]. split; [done|]. symmetry. apply (Hled i p Hp).
Qed.

(** ** The low-stock listing *)

Lemma str_leb_total a b : str_leb a b = true ∨ str_leb b a = true.
Proof.
  revert b. induction a as [|x a IH]; intros [|y b]; simpl; auto.
  destruct (N.ltb_spec x y), (N.ltb_spec y x); auto; try lia.
  destruct (N.eqb_spec x y), (N.eqb_spec y x); auto; lia.
Qed.

Lemma str_leb_trans a b c :
  str_leb a b = true → str_leb b c = true → str_leb a c = true.
Proof.
  revert b c. induction a as [|x a IH]; intros [|y b] [|z c]; simpl; auto; try done.
  destruct (N.ltb_spec x y), (N.ltb_spec y z), (N.ltb_spec x z); auto; try lia;
    destruct (N.eqb_spec x y), (N.eqb_spec y z), (N.eqb_spec x z);
    auto; try done; try lia.
  apply IH.
Qed.

Lemma key_ltb_trichotomy a b : key_ltb a b = true ∨ a = b ∨ key_ltb b a = true.
Proof.
  destruct a as [x|], b as [y|]; simpl; auto.
  destruct (decide (x < y)), (decide (y < x)).
  - lia.
  - left. by apply bool_decide_eq_true_2.
  - right. right. by apply bool_decide_eq_true_2.
  - right. left. f_equal. lia.
Qed.

Lemma key_ltb_trans a b c :
  key_ltb a b = true → key_ltb b c = true → key_ltb a c = true.
Proof.
  destruct a as [x|], b as [y|], c as [z|]; simpl; try done.
  rewrite !bool_decide_eq_true. lia.
Qed.

Lemma order_by_cases a b :
  order_by a b ↔
    key_ltb (shortage (row a)) (shortage (row b)) = true
    ∨ (shortage (row a) = shortage (row b)
       ∧ str_leb (name (row a)) (name (row b)) = true).
Proof.
  unfold order_by, order_by_leb.
  rewrite orb_true_iff, andb_true_iff, bool_decide_eq_true. tauto.
Qed.

Global Instance order_by_total : Total order_by.
Proof.
  intros a b. rewrite !order_by_cases.
  destruct (key_ltb_trichotomy (shortage (row a)) (shortage (row b)))
    as [?|[Heq|?]]; auto.
  destruct (str_leb_total (name (row a)) (name (row b))); auto.
Qed.

Global Instance order_by_trans : Transitive order_by.
Proof.
  intros a b c. rewrite !order_by_cases.
  intros [Hab|[Hab Hnab]] [Hbc|[Hbc Hnbc]].
  - left. by eapply key_ltb_trans.
  - left. by rewrite <- Hbc.
  - left. by rewrite Hab.
  - right. split; [congruence|]. by eapply str_leb_trans.
Qed.

Lemma get_low_stock_products_run c st :
  db_fails c SelectLowStock = false →
  get_low_stock_products c st = (Ok (merge_sort order_by (low_stock_rows st)), st).
Proof.
  intros Hdb. unfold get_low_stock_products, select_low_stock. run_db.
  by rewrite Hdb.
Qed.

Lemma where_low_spec p :
  where_low p = true ↔ ∃ m, min_stock_level p = Some m ∧ quantity p ≤ m.
Proof.
  unfold where_low. destruct (min_stock_level p) as [m|].
  - rewrite bool_decide_eq_true. split.
    + intros Hq. by exists m.
    + by intros (m' & [= <-] & Hq).
  - split; [done|]. by intros (m' & ? & _).
Qed.

Lemma joined_inj st : Inj (=) (=) (joined st).
Proof. intros [i p] [j q] Heq. by injection Heq as -> ->. Qed.

Lemma low_stock_rows_NoDup st : NoDup (low_stock_rows st).
Proof.
  unfold low_stock_rows. apply NoDup_fmap_2; [apply joined_inj|].
  apply list.NoDup_filter, NoDup_map_to_list.
Qed.

Lemma elem_of_low_stock_rows st r :
  r ∈ low_stock_rows st ↔
    ∃ i p m, products st !! i = Some p ∧ r = joined st (i, p)
             ∧ min_stock_level p = Some m ∧ quantity p ≤ m.
Proof.
  unfold low_stock_rows. rewrite list_elem_of_fmap. split.
  - intros ([i p] & -> & Hin). apply list_elem_of_filter in Hin as [Hlow Hin].
    apply elem_of_map_to_list in Hin. apply where_low_spec in Hlow as (m & ? & ?).
    by exists i, p, m.
  - intros (i & p & m & Hp & -> & Hm & Hq). exists (i, p). split; [done|].
    apply list_elem_of_filter. split.
    + apply where_low_spec. by exists m.
    + by apply elem_of_map_to_list.
Qed.

Lemma StronglySorted_on_elements {A} (R R' : relation A) (l : list A) :
  StronglySorted R l →
  (∀ a b, a ∈ l → b ∈ l → R a b → R' a b) →
  StronglySorted R' l.
Proof.
  induction 1 as [|a l Hl IH Hall]; intros Himp; constructor.
  - apply IH. intros x y Hx Hy. apply Himp; by right.
  - apply list.Forall_forall. intros b Hb. apply Himp; [by left|by right|].
    by eapply list.Forall_forall in Hall.
Qed.

Lemma sqlite_sub_exact a b :
  - 2 ^ 63 ≤ a - b < 2 ^ 63 → sqlite_sub a b = a - b.
Proof. intros Hfit. unfold sqlite_sub. by rewrite bool_decide_eq_true_2. Qed.

Lemma order_by_sort_key_then_name a b ma mb :
  min_stock_level (row a) = Some ma → min_stock_level (row b) = Some mb →
  order_by a b → sort_key_then_name a b.
Proof.
  intros Ha Hb. rewrite order_by_cases. unfold shortage. rewrite Ha, Hb. simpl.
  rewrite bool_decide_eq_true. intros [Hlt|[[= Heq] Hn]]; exists ma, mb; auto.
Qed.

Lemma sort_key_then_name_exact a b :
  (∀ m, min_stock_level (row a) = Some m → - 2 ^ 63 ≤ quantity (row a) - m ≤ 0) →
  (∀ m, min_stock_level (row b) = Some m → - 2 ^ 63 ≤ quantity (row b) - m ≤ 0) →
  sort_key_then_name a b → shortage_then_name a b.
Proof.
  intros Hfa Hfb (ma & mb & Ha & Hb & Hkey). exists ma, mb.
  specialize (Hfa ma Ha). specialize (Hfb mb Hb).
  rewrite !sqlite_sub_exact in Hkey by lia. auto.
Qed.

(** C9, as the code has it.  The listing holds exactly the products with
    [quantity <= min_stock_level], each once, ordered by ascending
    [quantity - min_stock_level] as SQLite evaluates it, then by name.
    When the difference of every such product fits in 64 bits, this is
    the order of the exact differences.  When the table holds four
    products with (quantity, min_stock_level) = (0,5), (5,5), (6,5) and
    (10,0), the listing is the first and then the second. *)
Theorem get_low_stock_products_listing c st :
  db_fails c SelectLowStock = false →
  ∃ rows,
    get_low_stock_products c st = (Ok rows, st)
    ∧ (∀ r, r ∈ rows ↔
         ∃ i p m, products st !! i = Some p ∧ r = joined st (i, p)
                  ∧ min_stock_level p = Some m ∧ quantity p ≤ m)
    ∧ NoDup rows
    ∧ StronglySorted sort_key_then_name rows
    ∧ ((∀ i p m, products st !! i = Some p → min_stock_level p = Some m →
          quantity p ≤ m → - 2 ^ 63 ≤ quantity p - m) →
       StronglySorted shortage_then_name rows)
    ∧ (∀ i1 p1 i2 p2 i3 p3 i4 p4,
         map_to_list (products st) ≡ₚ [(i1, p1); (i2, p2); (i3, p3); (i4, p4)] →
         quantity p1 = 0 → min_stock_level p1 = Some 5 →
         quantity p2 = 5 → min_stock_level p2 = Some 5 →
         quantity p3 = 6 → min_stock_level p3 = Some 5 →
         quantity p4 = 10 → min_stock_level p4 = Some 0 →
         rows = [joined st (i1, p1); joined st (i2, p2)]).
Proof.
  intros Hdb. eexists. split; [by apply get_low_stock_products_run|].
  assert (∀ r, r ∈ merge_sort order_by (low_stock_rows st) ↔ r ∈ low_stock_rows st)
    as Hmem by (intros r; by rewrite merge_sort_Permutation).
  assert (StronglySorted sort_key_then_name (merge_sort order_by (low_stock_rows st)))
    as Hsorted.
  { apply (StronglySorted_on_elements order_by).
    + apply (StronglySorted_merge_sort _).
    + intros a b [ia [pa [ma (_ & -> & Ha & _)]]]%Hmem%elem_of_low_stock_rows
                 [ib [pb [mb (_ & -> & Hb & _)]]]%Hmem%elem_of_low_stock_rows.
      by apply order_by_sort_key_then_name with ma mb. }
  split; [|split; [|split; [|split]]].
  - intros r. by rewrite Hmem, elem_of_low_stock_rows.
  - rewrite merge_sort_Permutation. apply low_stock_rows_NoDup.
  - exact Hsorted.
  - intros Hfit. apply (StronglySorted_on_elements sort_key_then_name); [done|].
    intros a b [ia [pa [ma (Hpa & -> & Ha & Hqa)]]]%Hmem%elem_of_low_stock_rows
               [ib [pb [mb (Hpb & -> & Hb & Hqb)]]]%Hmem%elem_of_low_stock_rows.
    apply sort_key_then_name_exact; cbn; intros m Hm.
    + rewrite Ha in Hm. injection Hm as <-.
      pose proof (Hfit ia pa ma Hpa Ha Hqa). lia.
    + rewrite Hb in Hm. injection Hm as <-.
      pose proof (Hfit ib pb mb Hpb Hb Hqb). lia.
  - intros i1 p1 i2 p2 i3 p3 i4 p4 Hrows Hq1 Hm1 Hq2 Hm2 Hq3 Hm3 Hq4 Hm4.
    assert (low_stock_rows st ≡ₚ [joined st (i1, p1); joined st (i2, p2)]) as Hperm.
    { unfold low_stock_rows. rewrite Hrows.
      rewrite !filter_cons, filter_nil. unfold where_low. cbn [snd].
      rewrite Hq1, Hm1, Hq2, Hm2, Hq3, Hm3, Hq4, Hm4.
      rewrite !bool_decide_eq_true_2 by lia.
      rewrite !bool_decide_eq_false_2 by lia.
      rewrite decide_True by done. rewrite decide_True by done.
      rewrite decide_False by done. rewrite decide_False by done. done. }
    assert (shortage p1 = Some (-5) ∧ shortage p2 = Some 0) as [Hs1 Hs2].
    { unfold shortage. rewrite Hq1, Hm1, Hq2, Hm2. cbn [mbind option_bind].
      rewrite !sqlite_sub_exact by lia. done. }
    assert (order_by (joined st (i1, p1)) (joined st (i2, p2))) as H12.
    { apply order_by_cases. left. cbn [row joined snd]. rewrite Hs1, Hs2. done. }
    assert (¬ order_by (joined st (i2, p2)) (joined st (i1, p1))) as H21.
    { rewrite order_by_cases. cbn [row joined snd]. rewrite Hs1, Hs2.
      cbn. intros [?|[? _]]; done. }
    apply (Sorted_unique_strong order_by).
    + intros x1 x2 Hx1 Hx2 H1 H2.
      rewrite merge_sort_Permutation, Hperm in Hx1.
      decompose_list_elem_of; subst; done.
    + apply (Sorted_merge_sort _).
    + repeat constructor. done.
    + by rewrite merge_sort_Permutation.
Qed.

(** ** What [update_product] can change *)

Lemma apply_set_app c s1 s2 p :
  apply_set c (s1 ++ s2) p = apply_set c s1 p ≫= apply_set c s2.
Proof.
  revert p. induction s1 as [|[col e] s1 IH]; intros p; [done|].
  simpl. destruct (set_column col (eval c e) p) as [p1|]; [|done]. apply IH.
Qed.

Lemma update_sets_stamp c kwargs p p' :
  apply_set c (update_sets kwargs) p = Ok p' → updated_at p' = current_timestamp c.
Proof.
  unfold update_sets. rewrite apply_set_app.
  destruct (apply_set c _ p) as [p1|]; [|done]. by intros [= <-].
Qed.

Lemma update_sets_columns_given kwargs col :
  col ∈ (update_sets kwargs).*1 →
  (col ∈ valid_fields ∧ col ∈ kwargs.*1) ∨ col = "updated_at"%string.
Proof.
  unfold update_sets. rewrite fmap_app, elem_of_app. intros [Hin|Hin].
  - left. rewrite <- list_fmap_compose in Hin.
    apply list_elem_of_fmap in Hin as (fv & -> & Hfv).
    apply list_elem_of_filter in Hfv as [Hvalid Hfv]. split; [done|].
    apply list_elem_of_fmap. by exists fv.
  - right. simpl in Hin. by decompose_list_elem_of.
Qed.

(** C8.  [update_product] writes nothing but one row of [products].  When
    it returns [True] that row is the one with the given id; its
    [updated_at] is the current timestamp, and every other column keeps its
    value unless it is one of [name], [category_id], [sku], [description],
    [unit_price], [min_stock_level], [supplier_id] and was passed in
    [kwargs].  In particular [quantity] and [created_at] keep their values.
    When it returns [False] the database is unchanged. *)
Theorem update_product_frame c i kwargs st b st' :
  update_product c i kwargs st = (Ok b, st') →
  categories st' = categories st
  ∧ suppliers st' = suppliers st
  ∧ stock_movements st' = stock_movements st
  ∧ products_seq st' = products_seq st
  ∧ stock_movements_seq st' = stock_movements_seq st
  ∧ (∀ j, j ≠ i → products st' !! j = products st !! j)
  ∧ (b = false → st' = st)
  ∧ (b = true →
     ∃ p p', products st !! i = Some p ∧ products st' !! i = Some p'
       ∧ updated_at p' = current_timestamp c
       ∧ quantity p' = quantity p
       ∧ created_at p' = created_at p
       ∧ ∀ col, col ≠ "updated_at"%string →
           col ∉ valid_fields ∨ col ∉ kwargs.*1 →
           get_column col p' = get_column col p).
Proof.
  rewrite update_product_run.
  destruct (negb _); [intros [= <- <-]; by repeat split|].
  destruct (filter _ kwargs) as [|fv l] eqn:Hrec; [intros [= <- <-]; by repeat split|].
  destruct (db_fails c UpdateProduct); [intros [= <- <-]; by repeat split|].
  destruct (products st !! i) as [p|] eqn:Hp; [|intros [= <- <-]; by repeat split].
  destruct (apply_set c (update_sets kwargs) p) as [p'|] eqn:Hset;
    [|intros [= <- <-]; by repeat split].
  destruct (decide _); [intros [= <- <-]; by repeat split|].
  intros [= <- <-]. cbn. repeat split; try done.
  - intros j Hj. by rewrite lookup_insert_ne.
  - intros _. exists p, p'. rewrite lookup_insert_eq. repeat split; try done.
    + by eapply update_sets_stamp.
    + by eapply update_sets_keep_quantity.
    + assert (get_column "created_at" p' = get_column "created_at" p) as Hc.
      { eapply apply_set_frame; [done|].
        intros [[Hin _]| ?]%update_sets_columns_given; [|done].
        unfold valid_fields in Hin. by decompose_list_elem_of. }
      by injection Hc.
    + intros col Hne Hcol. eapply apply_set_frame; [done|].
      intros [[? ?]| ?]%update_sets_columns_given; [|done]. by destruct Hcol.
Qed.

Lemma filter_valid_fields_idemp (kwargs : list (string * PyVal)) :
  filter (λ fv, fv.1 ∈ valid_fields) (filter (λ fv, fv.1 ∈ valid_fields) kwargs)
  = filter (λ fv, fv.1 ∈ valid_fields) kwargs.
Proof.
  induction kwargs as [|fv l IH]; [done|].
  rewrite filter_cons. destruct (decide _) as [Hv|Hv]; [|done].
  rewrite filter_cons, decide_True by done. by rewrite IH.
Qed.

Lemma update_sets_recognized kwargs :
  update_sets (filter (λ fv, fv.1 ∈ valid_fields) kwargs) = update_sets kwargs.
Proof. unfold update_sets. by rewrite filter_valid_fields_idemp. Qed.

(** *** Reading back what was assigned *)

Lemma set_column_get col v p p' :
  set_column col v p = Ok p' → get_column col p' = stored_as col v.
Proof.
  unfold set_column, get_column, stored_as. intros Hset.
  repeat case_decide; try done; subst col;
    destruct v as [|z|f|s];
    cbv [mbind mret Result_bind Result_ret not_null as_text as_integer as_real]
      in Hset;
    try (destruct (is_nan f); cbv beta iota in Hset);
    try done; by injection Hset as <-.
Qed.

Lemma apply_set_get c sets p p' col e :
  apply_set c sets p = Ok p' → NoDup sets.*1 → (col, e) ∈ sets →
  get_column col p' = stored_as col (eval c e).
Proof.
  revert p. induction sets as [|[col0 e0] sets IH]; intros p Hset Hnd Hin.
  - by apply elem_of_nil in Hin.
  - simpl in Hset.
    destruct (set_column col0 (eval c e0) p) as [p1|] eqn:Hcol; [|done].
    simpl in Hset. rewrite fmap_cons in Hnd.
    apply list.NoDup_cons in Hnd as [Hnot Hnd].
    apply elem_of_cons in Hin as [[= -> ->]|Hin].
    + rewrite (apply_set_frame c sets p1 p' col0 Hset Hnot).
      by eapply set_column_get.
    + by apply (IH p1).
Qed.

Lemma update_sets_fst kwargs :
  (update_sets kwargs).*1
  = (filter (λ fv : string * PyVal, fv.1 ∈ valid_fields) kwargs).*1
    ++ ["updated_at"%string].
Proof.
  unfold update_sets. rewrite fmap_app. f_equal.
  rewrite <- list_fmap_compose. by apply list_fmap_ext.
Qed.

Lemma update_sets_NoDup kwargs : NoDup kwargs.*1 → NoDup (update_sets kwargs).*1.
Proof.
  intros Hnd. rewrite update_sets_fst. apply list.NoDup_app. split; [|split].
  - eapply sublist_NoDup; [done|]. apply fmap_sublist, sublist_filter.
  - intros col Hcol Hk. apply list_elem_of_singleton in Hk as ->.
    apply list_elem_of_fmap in Hcol as (fv' & Heq & [Hv _]%list_elem_of_filter).
    rewrite <- Heq in Hv. unfold valid_fields in Hv. by decompose_list_elem_of.
  - apply NoDup_singleton.
Qed.

Lemma update_sets_elem kwargs col v :
  (col, v) ∈ kwargs → col ∈ valid_fields → (col, Param v) ∈ update_sets kwargs.
Proof.
  intros Hin Hv. unfold update_sets. apply elem_of_app. left.
  apply list_elem_of_fmap. exists (col, v). split; [done|].
  by apply list_elem_of_filter.
Qed.

(** After an accepted SET list every recognized column that was passed
    holds the value passed. *)
Lemma update_sets_get c kwargs p p' col v :
  apply_set c (update_sets kwargs) p = Ok p' → NoDup kwargs.*1 →
  (col, v) ∈ kwargs → col ∈ valid_fields →
  get_column col p' = stored_as col v.
Proof.
  intros Hset Hnd Hin Hv. change v with (eval c (Param v)).
  eapply apply_set_get; [done|by apply update_sets_NoDup|by apply update_sets_elem].
Qed.

(** *** Which SET lists are accepted *)

Lemma set_column_binds col v p :
  col ∈ valid_fields → binds col v = true → ∃ p', set_column col v p = Ok p'.
Proof.
  intros Hv Hb. unfold valid_fields in Hv.
  decompose_list_elem_of; subst col; destruct v as [|z|f|s];
    try discriminate Hb; try (by eexists).
  change (negb (is_nan f) = true) in Hb. apply negb_true_iff in Hb.
  exists (set_unit_price f p).
  change (set_column "unit_price" (PyFloat f) p)
    with (f' ← not_null (Ok (if is_nan f then None else Some f));
          Ok (set_unit_price f' p)).
  by rewrite Hb.
Qed.

Lemma apply_set_binds c (l : list (string * PyVal)) p :
  Forall (λ fv, fv.1 ∈ valid_fields ∧ binds fv.1 fv.2 = true) l →
  ∃ p', apply_set c ((λ fv, (fv.1, Param fv.2)) <$> l) p = Ok p'.
Proof.
  intros Hall. revert p. induction Hall as [|[col v] l [Hv Hb] _ IH]; intros p.
  - by eexists.
  - destruct (set_column_binds col v p Hv Hb) as [p1 Hp1].
    rewrite fmap_cons. cbn [apply_set fst snd eval]. rewrite Hp1. apply IH.
Qed.

Lemma update_sets_binds c kwargs p :
  Forall (λ fv, binds fv.1 fv.2 = true) (filter (λ fv, fv.1 ∈ valid_fields) kwargs) →
  ∃ p', apply_set c (update_sets kwargs) p = Ok p'.
Proof.
  intros Hall. unfold update_sets. rewrite apply_set_app.
  destruct (apply_set_binds c (filter (λ fv, fv.1 ∈ valid_fields) kwargs) p)
    as [p1 ->]; [|by eexists].
  apply list.Forall_forall. intros fv Hfv. split.
  - by apply list_elem_of_filter in Hfv as [? _].
  - by eapply list.Forall_forall in Hall.
Qed.

Lemma apply_set_name_null c sets p :
  ("name"%string, Param PyNone) ∈ sets → ∃ e, apply_set c sets p = Raise e.
Proof.
  revert p. induction sets as [|[col0 e0] sets IH]; intros p Hin.
  - by apply elem_of_nil in Hin.
  - apply elem_of_cons in Hin as [[= <- <-]|Hin]; [by eexists|].
    cbn [apply_set]. destruct (set_column col0 (eval c e0) p) as [p1|e1].
    + apply (IH p1 Hin).
    + by eexists.
Qed.

Lemma sku_column p s : get_column "sku" p = PyStr s → sku p = Some s.
Proof.
  intros Hget. change (of_opt PyStr (sku p) = PyStr s) in Hget.
  destruct (sku p); [by injection Hget as ->|done].
Qed.

(** C10, as the code has it.  [update_product] looks only at the items of
    [kwargs] whose name is in [valid_fields]: the call has the same result
    and effect as the call with the other items removed ([quantity] among
    them).  With no recognized item it returns [False] and writes nothing.
    With at least one, when the values are of their columns' types, the
    caller has the permission, the product exists, the UPDATE does not
    raise and no other product holds the SKU that is passed, it returns
    [True]; the row then holds every recognized value that was passed, the
    current timestamp in [updated_at], and its other columns as they were.
    A recognized item is not enough for success: the call returns [False]
    and writes nothing without the permission, for an id that no product
    has, when [name] is [None], when another product holds the SKU that is
    passed, and when the UPDATE raises. *)
Theorem update_product_unrecognized_ignored c i kwargs st :
  let recognized := filter (λ fv, fv.1 ∈ valid_fields) kwargs in
  update_product c i kwargs st = update_product c i recognized st
  ∧ (recognized = [] → update_product c i kwargs st = (Ok false, st))
  ∧ (recognized ≠ [] →
     NoDup kwargs.*1 →
     Forall (λ fv, binds fv.1 fv.2 = true) recognized →
     has_permission c "edit_stock" = true →
     db_fails c UpdateProduct = false →
     ∀ p, products st !! i = Some p →
       (∀ s j q, ("sku"%string, PyStr s) ∈ kwargs →
          products st !! j = Some q → sku q = Some s → j = i) →
       ∃ p',
         update_product c i kwargs st
         = (Ok true, with_products (<[i := p']> (products st)) st)
         ∧ (∀ col v, (col, v) ∈ recognized → get_column col p' = stored_as col v)
         ∧ updated_at p' = current_timestamp c
         ∧ (∀ col, col ∉ recognized.*1 → col ≠ "updated_at"%string →
              get_column col p' = get_column col p))
  ∧ (has_permission c "edit_stock" = false →
     update_product c i kwargs st = (Ok false, st))
  ∧ (products st !! i = None → update_product c i kwargs st = (Ok false, st))
  ∧ (("name"%string, PyNone) ∈ kwargs →
     update_product c i kwargs st = (Ok false, st))
  ∧ (∀ s j q, NoDup kwargs.*1 → ("sku"%string, PyStr s) ∈ kwargs →
       j ≠ i → products st !! j = Some q → sku q = Some s →
       update_product c i kwargs st = (Ok false, st))
  ∧ (db_fails c UpdateProduct = true →
     update_product c i kwargs st = (Ok false, st)).
Proof.
  intros recognized. repeat apply conj.
  - rewrite !update_product_run. subst recognized.
    by rewrite filter_valid_fields_idemp, update_sets_recognized.
  - intros Hnone. rewrite update_product_run. fold recognized. rewrite Hnone.
    by destruct (negb _).
  - intros Hsome Hnd Hbinds Hperm Hdb p Hp Hsku.
    destruct (update_sets_binds c kwargs p Hbinds) as [p' Hset].
    assert (∀ col v, (col, v) ∈ recognized → get_column col p' = stored_as col v)
      as Hget.
    { intros col v [Hv Hin]%list_elem_of_filter. by eapply update_sets_get. }
    exists p'. split; [|split; [done|split]].
    + rewrite update_product_run, Hperm, Hdb, Hp, Hset. fold recognized.
      cbn [negb]. destruct recognized as [|fv l] eqn:Hrec; [done|].
      rewrite decide_False; [done|]. intros [Hin Hc].
      rewrite update_sets_fst in Hin. fold recognized in Hin.
      apply elem_of_app in Hin as [Hin|Hin];
        [|apply list_elem_of_singleton in Hin; done].
      rewrite <- Hrec in *.
      apply list_elem_of_fmap in Hin as ([col v] & Hcol & Hin). cbn in Hcol. subst col.
      pose proof (Hget _ _ Hin) as Hread.
      eapply list.Forall_forall in Hbinds; [|exact Hin]. cbn in Hbinds.
      apply list_elem_of_filter in Hin as [_ Hin].
      destruct v as [|z|f|s]; try discriminate Hbinds.
      * change (of_opt PyStr (sku p') = PyNone) in Hread.
        destruct (sku p'); [done|]. exact Hc.
      * apply sku_column in Hread. rewrite Hread in Hc.
        destruct Hc as (j & q & Hj & Hne & Hs).
        apply Hne. f_equal. by eapply Hsku.
    + by eapply update_sets_stamp.
    + intros col Hnot Hne. eapply apply_set_frame; [done|].
      rewrite update_sets_fst. fold recognized.
      intros [?|?%list_elem_of_singleton]%elem_of_app; done.
  - intros Hperm. by rewrite update_product_run, Hperm.
  - intros Hp. rewrite update_product_run, Hp. destruct (negb _); [done|].
    destruct (filter _ kwargs); [done|]. by destruct (db_fails c UpdateProduct).
  - intros Hin. rewrite update_product_run. destruct (negb _); [done|].
    destruct (filter _ kwargs); [done|]. destruct (db_fails c UpdateProduct); [done|].
    destruct (products st !! i) as [p0|]; [|done].
    destruct (apply_set_name_null c (update_sets kwargs) p0) as [e ->]; [|done].
    apply update_sets_elem; [done|]. compute_done.
  - intros s j q Hnd Hin Hne Hj Hs. rewrite update_product_run.
    destruct (negb _); [done|].
    destruct (filter _ kwargs) as [|fv l] eqn:Hrec; [done|].
    destruct (db_fails c UpdateProduct); [done|].
    destruct (products st !! i) as [p0|]; [|done].
    destruct (apply_set c (update_sets kwargs) p0) as [p'|] eqn:Hset; [|done].
    rewrite decide_True; [done|]. split.
    + rewrite update_sets_fst. apply elem_of_app. left.
      apply list_elem_of_fmap. exists ("sku"%string, PyStr s). split; [done|].
      apply list_elem_of_filter. split; [compute_done|done].
    + assert (sku p' = Some s) as ->.
      { apply sku_column. change (PyStr s) with (stored_as "sku" (PyStr s)).
        eapply (update_sets_get c kwargs); [done..|compute_done]. }
      exists j, q. split; [done|]. split; [congruence|done].
  - intros Hdb. rewrite update_product_run, Hdb. destruct (negb _); [done|].
    by destruct (filter _ kwargs).
Qed.

(** ** The two writes of [adjust_stock] *)

(** C2, as the code has it.  [adjust_stock] sends the quantity update and
    the movement insert as two statements, each committed on its own, the
    update first.  A call that returns [False] has written nothing.  When
    the movement insert does not raise, a call writes both the quantity and
    the movement, or neither.  When the movement insert raises after the
    update, the call still returns [True]: the quantity is written and no
    movement is. *)
Theorem adjust_stock_two_writes c i q r st :
  (∀ st', adjust_stock c i q r st = (Ok false, st') → st' = st)
  ∧ (db_fails c InsertMovement = false →
     (adjust_stock c i q r st).2 = st
     ∨ ∃ p, products st !! i = Some p
         ∧ adjust_stock c i q r st
           = (Ok true,
              with_movement_appended (adjustment_row c st i q r p)
                (with_products (<[i := adjusted_row c q p]> (products st)) st)))
  ∧ (db_fails c InsertMovement = true →
     has_permission c "edit_stock" = true →
     db_fails c SelectProductById = false →
     db_fails c UpdateQuantity = false →
     ∀ p, products st !! i = Some p → q ≠ quantity p →
       adjust_stock c i q r st
       = (Ok true, with_products (<[i := adjusted_row c q p]> (products st)) st)).
Proof.
  rewrite adjust_stock_run. split; [|split].
  - intros st'. destruct (negb _); [by intros [= <-]|].
    destruct (db_fails c SelectProductById); [by intros [= <-]|].
    destruct (products st !! i) as [p|]; [|by intros [= <-]].
    destruct (decide _); [done|].
    destruct (db_fails c UpdateQuantity); [by intros [= <-]|].
    cbn zeta. by destruct (db_fails c InsertMovement).
  - intros ->. destruct (negb _); [by left|].
    destruct (db_fails c SelectProductById); [by left|].
    destruct (products st !! i) as [p|]; [|by left].
    destruct (decide _); [by left|].
    destruct (db_fails c UpdateQuantity); [by left|].
    right. by exists p.
  - intros -> -> -> -> p -> Hne. cbn [negb].
    rewrite decide_False by lia. done.
Qed.

(** ** Negative quantities *)

Lemma select_by_sku_none (st : Store) s :
  (∀ j pj, products st !! j = Some pj → sku pj ≠ Some s) →
  filter (λ ip : Z * Product, sku ip.2 = Some s) (map_to_list (products st)) = [].
Proof.
  intros Hfree. destruct (filter _ _) as [|[j pj] l] eqn:Hl; [done|].
  assert ((j, pj) ∈ (j, pj) :: l) as Hin by left.
  rewrite <- Hl in Hin. apply list_elem_of_filter in Hin as [Hs Hin].
  apply elem_of_map_to_list in Hin. by destruct (Hfree j pj Hin).
Qed.

(** The stock adjustment dialog turns a negative quantity down before the
    engine is called: an error box, and nothing written. *)
Lemma dialog_rejects_negative_quantity c i q reason notes st :
  q < 0 →
  StockAdjustmentDialog_adjust_stock c i q reason notes st
  = (showerror "Error" "Quantity cannot be negative.", st).
Proof.
  intros Hq. unfold StockAdjustmentDialog_adjust_stock.
  by rewrite bool_decide_eq_true_2.
Qed.

(** C3, as the code has it.  The engine does not look at the sign of a
    quantity.  For a caller with the permission, statements that do not
    raise and a quantity and difference within 64 bits, [adjust_stock]
    with a negative new quantity on a product whose quantity is not
    negative returns [True], stores the negative quantity and appends one
    "out" movement of the difference; [add_product] with a negative
    quantity, a price that is a number and a free SKU returns the new id
    and stores the product row with that quantity, and no movement row.
    The stock adjustment dialog turns a negative quantity down before it
    calls the engine: an error box, and nothing written. *)
Theorem negative_quantity_accepted `{Unicode} c :
  (∀ i q r st p,
     q < 0 → - 2 ^ 63 ≤ q → 0 ≤ quantity p → quantity p - q < 2 ^ 63 →
     products st !! i = Some p →
     has_permission c "edit_stock" = true →
     db_fails c SelectProductById = false →
     db_fails c UpdateQuantity = false →
     db_fails c InsertMovement = false →
     adjust_stock c i q r st
     = (Ok true,
        with_movement_appended
          (movement_row c st i "out" (quantity p - q) (Some (py "adjustment"))
             (Some (if truthy_opt_str r then default [] r
                    else py "Stock adjustment")))
          (with_products (<[i := adjusted_row c q p]> (products st)) st))
     ∧ quantity <$> products (adjust_stock c i q r st).2 !! i = Some q
     ∧ ∃ mv, stock_movements (adjust_stock c i q r st).2 = stock_movements st ++ [mv]
         ∧ product_id mv = i ∧ movement_type mv = "out"%string
         ∧ mv_quantity mv = quantity p - q)
  ∧ (∀ n cid d u q m s k st sku',
       q < 0 → - 2 ^ 63 ≤ q → is_nan u = false →
       has_permission c "add_stock" = true →
       (resolve_sku c n cid k st).1 = Ok sku' →
       (∀ j pj, products st !! j = Some pj → sku pj ≠ Some sku') →
       db_fails c SelectProductBySku = false →
       db_fails c InsertProduct = false →
       add_product c n cid d u q m s k st
       = (Ok (Some (products_seq st + 1)),
          with_product_inserted (products_seq st + 1)
            (product_row c n cid sku' d u q m s) st)
       ∧ quantity <$> products (add_product c n cid d u q m s k st).2
                        !! (products_seq st + 1) = Some q
       ∧ stock_movements (add_product c n cid d u q m s k st).2 = stock_movements st)
  ∧ (∀ i q reason notes st,
       q < 0 →
       StockAdjustmentDialog_adjust_stock c i q reason notes st
       = (showerror "Error" "Quantity cannot be negative.", st)).
Proof.
  split; [|split].
  - intros i q r st p Hq Hmin Hp Hdiff Hi Hperm Hsel Hupd Hins.
    assert (adjust_stock c i q r st
            = (Ok true,
               with_movement_appended
                 (movement_row c st i "out" (quantity p - q) (Some (py "adjustment"))
                    (Some (if truthy_opt_str r then default [] r
                           else py "Stock adjustment")))
                 (with_products (<[i := adjusted_row c q p]> (products st)) st)))
      as Hrun.
    { rewrite adjust_stock_run, Hperm, Hsel, Hi, Hupd, Hins. cbn [negb].
      rewrite decide_False by lia. cbn zeta. unfold adjustment_row.
      rewrite bool_decide_eq_false_2 by lia.
      by replace (Z.abs (q - quantity p)) with (quantity p - q) by lia. }
    rewrite Hrun. split; [done|]. cbn. rewrite lookup_insert_eq. split; [done|].
    by eexists.
  - intros n cid d u q m s k st sku' Hq Hmin Hnan Hperm Hsku Hfree Hsel Hins.
    assert (add_product c n cid d u q m s k st
            = (Ok (Some (products_seq st + 1)),
               with_product_inserted (products_seq st + 1)
                 (product_row c n cid sku' d u q m s) st)) as Hrun.
    { rewrite add_product_run, Hperm, Hsku, Hins, Hnan. cbn [negb].
      rewrite get_product_by_sku_run, Hsel, select_by_sku_none by done. cbn.
      rewrite decide_False.
      + by rewrite bool_decide_eq_false_2 by lia.
      + intros (j & pj & Hj & _ & Hs). by destruct (Hfree j pj Hj). }
    rewrite Hrun. split; [done|]. cbn. by rewrite lookup_insert_eq.
  - intros i q reason notes st Hq. by apply dialog_rejects_negative_quantity.
Qed.

(** * Worked instances *)

(** Who may adjust stock: a manager, not a plain user, not a visitor. *)
Example edit_stock_roles :
  has_permission (ctx_of (Some {| user_ident := 2; role := "manager" |})) "edit_stock"
  = true
  ∧ has_permission (ctx_of (Some {| user_ident := 3; role := "user" |})) "edit_stock"
    = false
  ∧ has_permission (ctx_of None) "edit_stock" = false
  ∧ adjust_stock (ctx_of (Some {| user_ident := 3; role := "user" |})) 1 8 None one_product
    = (Ok false, one_product).
Proof. repeat split; vm_compute; reflexivity. Qed.

(** The SKU of a name with punctuation among its first four characters,
    and of a product without a category. *)
Example generate_sku_punctuated :
  generate_sku (H := ascii_tables) clock (py "a-b-c-d-e") (py "Electronics")
  = py "ELE-AB-03091405".
Proof. reflexivity. Qed.

Example generate_sku_no_category :
  generate_sku (H := ascii_tables) clock (py "Widget x") [] = py "GEN-WIDG-03091405".
Proof. reflexivity. Qed.

(** A product created with quantity 10 and minimum 5, then adjusted to 3
    for damage: one "in" movement of 10, one "out" movement of 7, quantity
    3, and the product is listed as low on stock. *)
Example adjust_after_create :
  (λ m, (product_id m, movement_type m, mv_quantity m, reference_id m, notes m))
    <$> stock_movements (perform_all (H := ascii_tables) (take 2 sample_calls) init_database)
  = [(1, "in"%string, 10, Some (py "Initial stock"), Some (py "Initial inventory"));
     (1, "out"%string, 7, Some (py "adjustment"), Some (py "damage"))]
  ∧ quantity <$> products
      (perform_all (H := ascii_tables) (take 2 sample_calls) init_database) !! 1
    = Some 3
  ∧ match (get_low_stock_products admin_ctx
             (perform_all (H := ascii_tables) (take 2 sample_calls) init_database)).1
    with
    | Ok rows => row_id <$> rows
    | Raise _ => []
    end = [1].
Proof. repeat split; vm_compute; reflexivity. Qed.

(** What is bound to the REAL column [unit_price]: an integer is stored as
    the REAL of that value; a NaN arrives as NULL, which the column
    refuses, in an UPDATE and in an INSERT. *)
Example unit_price_bindings :
  update_product admin_ctx 1 [("unit_price"%string, PyInt 10)] one_product
  = (Ok true,
     with_products
       (<[1 := set_updated_at (current_timestamp admin_ctx)
                 (set_unit_price 10%float widget)]> (products one_product))
       one_product)
  ∧ update_product admin_ctx 1 [("unit_price"%string, PyFloat nan)] one_product
    = (Ok false, one_product)
  ∧ add_product (H := ascii_tables) admin_ctx (py "Gadget") None None
      nan 3 0 None None init_database
    = (Ok None, init_database).
Proof. repeat split; vm_compute; reflexivity. Qed.

(** SQLite's subtraction at the edge of the 64-bit range: exact while the
    difference fits, and in binary64 beyond, where 2^63 + 1 and 2^63 + 2
    are the same number. *)
Example sqlite_sub_overflow :
  sqlite_sub 0 5 = -5
  ∧ sqlite_sub (- 2 ^ 63) 0 = - 2 ^ 63
  ∧ sqlite_sub (- 2 ^ 63) 1 = - 2 ^ 63
  ∧ sqlite_sub (- 2 ^ 63) 2 = - 2 ^ 63
  ∧ sqlite_sub (- 2 ^ 63 + 3) 5 = - 2 ^ 63
  ∧ sqlite_sub (- 2 ^ 63) 4000 = - 2 ^ 63 - 4096.
Proof. repeat split; vm_compute; reflexivity. Qed.

Lemma init_database_ledger : ledger_invariant init_database.
Proof.
  split; [split|].
  - intros i [p Hp]. cbn in Hp. by rewrite lookup_empty in Hp.
  - intros m Hm. cbn in Hm. by apply elem_of_nil in Hm.
  - intros i p Hp. cbn in Hp. by rewrite lookup_empty in Hp.
Qed.

Lemma sample_calls_safe : Forall ledger_safe sample_calls.
Proof. repeat constructor; cbn; lia. Qed.

Lemma one_product_ledger : ledger_invariant one_product.
Proof.
  apply (perform_keeps_ledger (H := ascii_tables) admin_ctx
           (Call_add_product (py "Widget") (Some 1) None 9.5%float 5 2 None None)
           init_database).
  - split; [reflexivity|]. cbn. lia.
  - apply init_database_ledger.
Qed.

Lemma quantity_is_ledger_net_witness :
  (keys_issued init_database
   ∧ ledger_consistent init_database
   ∧ Forall ledger_safe sample_calls
   ∧ ∃ p,
       products (perform_all (H := ascii_tables) sample_calls init_database) !! 2 = Some p
       ∧ quantity p
         = sum_quantities "in" 2
             (stock_movements (perform_all (H := ascii_tables) sample_calls init_database))
           - sum_quantities "out" 2
               (stock_movements (perform_all (H := ascii_tables) sample_calls init_database)))
  ∧ (ledger_consistent one_product
     ∧ products one_product !! 1 = Some widget
     ∧ 8 ≠ quantity widget
     ∧ (adjust_stock failing_insert_ctx 1 8 None one_product).1 = Ok true
     ∧ quantity <$> products (adjust_stock failing_insert_ctx 1 8 None one_product).2 !! 1
       = Some 8
     ∧ sum_quantities "in" 1
         (stock_movements (adjust_stock failing_insert_ctx 1 8 None one_product).2)
       - sum_quantities "out" 1
           (stock_movements (adjust_stock failing_insert_ctx 1 8 None one_product).2)
       = quantity widget).
Proof.
  pose proof init_database_ledger as [Hk Hl].
  pose proof one_product_ledger as [_ Hone].
  assert (products one_product !! 1 = Some widget) as Hw by (vm_compute; reflexivity).
  assert (8 ≠ quantity widget) as Hne by (cbn; lia).
  split.
  - split; [exact Hk|]. split; [exact Hl|]. split; [exact sample_calls_safe|].
    eexists. split.
    + vm_compute. reflexivity.
    + apply (proj1 (quantity_is_ledger_net (H := ascii_tables)) sample_calls
               init_database Hk Hl sample_calls_safe 2).
      vm_compute. reflexivity.
  - split; [exact Hone|]. split; [exact Hw|]. split; [exact Hne|].
    exact (proj2 (quantity_is_ledger_net (H := ascii_tables)) failing_insert_ctx 1 8
             None one_product widget Hone Hw Hne eq_refl eq_refl eq_refl eq_refl).
Defined.

(** C1 as stated fails: the widget is created with five in stock and
    adjusted to eight while the movement insert raises.  The stored
    quantity is 8; the movements of the product add up to 5. *)
Lemma quantity_without_movement :
  Forall (λ cc, match cc.2 with
                | Call_add_product _ _ _ _ q _ _ _ => 0 ≤ q
                | Call_adjust_stock _ _ _ => True
                | _ => False
                end) lost_movement_calls
  ∧ quantity <$> products
      (perform_all (H := ascii_tables) lost_movement_calls init_database) !! 1
    = Some 8
  ∧ sum_quantities "in" 1
      (stock_movements (perform_all (H := ascii_tables) lost_movement_calls init_database))
    - sum_quantities "out" 1
        (stock_movements (perform_all (H := ascii_tables) lost_movement_calls init_database))
    = 5.
Proof.
  split; [repeat constructor; cbn; lia|]. split; vm_compute; reflexivity.
Qed.

(** C2 as stated fails: the administrator adjusts the widget from 5 to 8
    while the movement insert raises.  The call reports success, the
    quantity is 8, no movement was added, and the ledger still nets 5. *)
Lemma adjust_stock_insert_failure :
  (adjust_stock failing_insert_ctx 1 8 None one_product).1 = Ok true
  ∧ quantity <$> products (adjust_stock failing_insert_ctx 1 8 None one_product).2 !! 1
    = Some 8
  ∧ stock_movements (adjust_stock failing_insert_ctx 1 8 None one_product).2
    = stock_movements one_product
  ∧ ledger_net 1 (stock_movements (adjust_stock failing_insert_ctx 1 8 None one_product).2)
    = 5.
Proof. repeat split; vm_compute; reflexivity. Qed.

Lemma adjust_stock_two_writes_witness :
  (adjust_stock admin_ctx 1 8 None one_product).2 = one_product
  ∨ (∃ p, products one_product !! 1 = Some p
       ∧ adjust_stock admin_ctx 1 8 None one_product
         = (Ok true,
            with_movement_appended (adjustment_row admin_ctx one_product 1 8 None p)
              (with_products (<[1 := adjusted_row admin_ctx 8 p]> (products one_product))
                 one_product))).
Proof.
  apply (proj1 (proj2 (adjust_stock_two_writes admin_ctx 1 8 None one_product))).
  reflexivity.
Defined.

(** C3 as stated fails: with the widget at 5, [adjust_stock] to -1 returns
    [True], stores -1 and appends a movement; [add_product] with quantity
    -1 returns the new id and stores the row. *)
Lemma negative_quantity_written :
  (adjust_stock admin_ctx 1 (-1) None one_product).1 = Ok true
  ∧ quantity <$> products (adjust_stock admin_ctx 1 (-1) None one_product).2 !! 1
    = Some (-1)
  ∧ (λ m, (product_id m, movement_type m, mv_quantity m))
      <$> stock_movements (adjust_stock admin_ctx 1 (-1) None one_product).2
    = [(1, "in"%string, 5); (1, "out"%string, 6)]
  ∧ (add_product (H := ascii_tables) admin_ctx (py "Gadget") None None
       2.25%float (-1) 0 None None init_database).1 = Ok (Some 1)
  ∧ quantity <$> products
      (add_product (H := ascii_tables) admin_ctx (py "Gadget") None None
         2.25%float (-1) 0 None None init_database).2 !! 1
    = Some (-1).
Proof. repeat split; vm_compute; reflexivity. Qed.

Lemma negative_quantity_accepted_witness :
  adjust_stock admin_ctx 1 (-1) None one_product
  = (Ok true,
     with_movement_appended
       (movement_row admin_ctx one_product 1 "out" (quantity widget - -1)
          (Some (py "adjustment")) (Some (py "Stock adjustment")))
       (with_products (<[1 := adjusted_row admin_ctx (-1) widget]> (products one_product))
          one_product))
  ∧ add_product (H := ascii_tables) admin_ctx (py "Gadget") None None
      2.25%float (-1) 0 None None init_database
    = (Ok (Some (products_seq init_database + 1)),
       with_product_inserted (products_seq init_database + 1)
         (product_row admin_ctx (py "Gadget") None (py "GEN-GADG-03091405") None
            2.25%float (-1) 0 None) init_database)
  ∧ StockAdjustmentDialog_adjust_stock admin_ctx 1 (-1) (py "damage") (py "two broken")
      one_product
    = (showerror "Error" "Quantity cannot be negative.", one_product).
Proof.
  destruct (negative_quantity_accepted (H := ascii_tables) admin_ctx)
    as (Hadj & Hadd & Hdialog).
  split; [|split].
  - apply (Hadj 1 (-1) None one_product widget).
    + lia.
    + lia.
    + cbn. lia.
    + cbn. lia.
    + vm_compute. reflexivity.
    + reflexivity.
    + reflexivity.
    + reflexivity.
    + reflexivity.
  - apply Hadd.
    + lia.
    + lia.
    + reflexivity.
    + reflexivity.
    + vm_compute. reflexivity.
    + intros j pj Hj. cbn in Hj. by rewrite lookup_empty in Hj.
    + reflexivity.
    + reflexivity.
  - apply Hdialog. lia.
Defined.

(** C5 as stated fails: the second product with the SKU W-1 is answered
    with [None], not with an error, and [None] is also the answer to a
    caller who is not logged in and asks for a SKU that is free. *)
Lemma duplicate_sku_returns_none :
  (add_product (H := ascii_tables) admin_ctx (py "Gadget") None None
     2.25%float 3 0 None (Some (py "W-1")) with_w1).1 = Ok None
  ∧ (add_product (H := ascii_tables) (ctx_of None) (py "Gadget") None None
       2.25%float 3 0 None (Some (py "GAD-1")) with_w1).1 = Ok None.
Proof. split; vm_compute; reflexivity. Qed.

Lemma add_product_duplicate_sku_witness :
  add_product (H := ascii_tables) admin_ctx (py "Widget") (Some 1) None
    9.5%float 5 2 None (Some (py "W-1")) init_database = (Ok (Some 1), with_w1)
  ∧ (resolve_sku (H := ascii_tables) admin_ctx (py "Widget") (Some 1)
       (Some (py "W-1")) init_database).1 = Ok (py "W-1")
  ∧ (resolve_sku (H := ascii_tables) admin_ctx (py "Gadget") None
       (Some (py "W-1")) with_w1).1 = Ok (py "W-1")
  ∧ add_product (H := ascii_tables) admin_ctx (py "Gadget") None None
      2.25%float 3 0 None (Some (py "W-1")) with_w1 = (Ok None, with_w1)
  ∧ products with_w1 !! 1
    = Some (product_row admin_ctx (py "Widget") (Some 1) (py "W-1") None
              9.5%float 5 2 None).
Proof.
  assert (add_product (H := ascii_tables) admin_ctx (py "Widget") (Some 1) None
            9.5%float 5 2 None (Some (py "W-1")) init_database
          = (Ok (Some 1), with_w1)) as Hfirst by (vm_compute; reflexivity).
  assert ((resolve_sku (H := ascii_tables) admin_ctx (py "Widget") (Some 1)
             (Some (py "W-1")) init_database).1 = Ok (py "W-1")) as Hs1
    by reflexivity.
  assert ((resolve_sku (H := ascii_tables) admin_ctx (py "Gadget") None
             (Some (py "W-1")) with_w1).1 = Ok (py "W-1")) as Hs2
    by reflexivity.
  split; [exact Hfirst|]. split; [exact Hs1|]. split; [exact Hs2|].
  destruct (add_product_duplicate_sku (H := ascii_tables)
              admin_ctx (py "Widget") (Some 1) None 9.5%float 5 2 None (Some (py "W-1"))
              admin_ctx (py "Gadget") None None 2.25%float 3 0 None (Some (py "W-1"))
              init_database 1 with_w1 (py "W-1") Hfirst Hs1 Hs2)
    as (Hsecond & Hrow & _).
  split; [exact Hsecond|exact Hrow].
Defined.

Lemma adjust_stock_same_quantity_witness :
  products one_product !! 1 = Some widget
  ∧ has_permission admin_ctx "edit_stock" = true
  ∧ db_fails admin_ctx SelectProductById = false
  ∧ adjust_stock admin_ctx 1 (quantity widget) (Some (py "recount")) one_product
    = (Ok true, one_product).
Proof.
  assert (products one_product !! 1 = Some widget) as Hp by (vm_compute; reflexivity).
  split; [exact Hp|]. split; [reflexivity|]. split; [reflexivity|].
  exact (proj1 (adjust_stock_same_quantity admin_ctx one_product 1 widget
                  (Some (py "recount")) Hp eq_refl eq_refl)).
Defined.

Lemma delete_product_guard_witness :
  delete_product admin_ctx 1 one_product = (Ok false, one_product)
  ∧ delete_product admin_ctx 1 untouched_product
    = (Ok true, with_products (delete 1 (products untouched_product)) untouched_product)
  ∧ products (delete_product admin_ctx 1 untouched_product).2 !! 1 = None.
Proof.
  split.
  - apply (proj1 (delete_product_guard admin_ctx one_product 1)).
    eexists. split; [vm_compute; left|reflexivity].
  - apply (proj2 (delete_product_guard admin_ctx untouched_product 1)).
    + intros m Hm. vm_compute in Hm. by apply elem_of_nil in Hm.
    + eexists. vm_compute. reflexivity.
    + reflexivity.
    + reflexivity.
    + reflexivity.
Defined.

Lemma update_product_frame_witness :
  update_product admin_ctx 1 mixed_kwargs one_product
  = (Ok true, (update_product admin_ctx 1 mixed_kwargs one_product).2)
  ∧ ∃ p p',
      products one_product !! 1 = Some p
      ∧ products (update_product admin_ctx 1 mixed_kwargs one_product).2 !! 1 = Some p'
      ∧ updated_at p' = current_timestamp admin_ctx
      ∧ quantity p' = quantity p
      ∧ created_at p' = created_at p.
Proof.
  assert (update_product admin_ctx 1 mixed_kwargs one_product
          = (Ok true, (update_product admin_ctx 1 mixed_kwargs one_product).2))
    as Hrun by (vm_compute; reflexivity).
  split; [exact Hrun|].
  destruct (update_product_frame admin_ctx 1 mixed_kwargs one_product true _ Hrun)
    as (_ & _ & _ & _ & _ & _ & _ & Htrue).
  destruct (Htrue eq_refl) as (p & p' & Hp & Hp' & Hstamp & Hq & Hc & _).
  by exists p, p'.
Defined.

Lemma four_products_rows :
  map_to_list (products four_products)
  ≡ₚ [(1, stocked 0 5 "bolt"); (2, stocked 5 5 "nut");
      (3, stocked 6 5 "washer"); (4, stocked 10 0 "rivet")].
Proof.
  unfold four_products. cbn [products]. apply map_to_list_to_map.
  cbn. repeat (constructor; [by intros ?; decompose_list_elem_of|]). constructor.
Qed.

Lemma four_products_fit i p m :
  products four_products !! i = Some p → min_stock_level p = Some m →
  quantity p ≤ m → - 2 ^ 63 ≤ quantity p - m.
Proof.
  intros Hp%elem_of_map_to_list Hm _. rewrite four_products_rows in Hp.
  assert (- 2 ^ 63 = -9223372036854775808) as -> by reflexivity.
  decompose_list_elem_of; injection Hp as -> ->; cbn in *; injection Hm as <-; lia.
Qed.

Lemma get_low_stock_products_listing_witness :
  db_fails admin_ctx SelectLowStock = false
  ∧ get_low_stock_products admin_ctx four_products
    = (Ok [joined four_products (1, stocked 0 5 "bolt");
           joined four_products (2, stocked 5 5 "nut")], four_products)
  ∧ StronglySorted shortage_then_name
      [joined four_products (1, stocked 0 5 "bolt");
       joined four_products (2, stocked 5 5 "nut")].
Proof.
  split; [reflexivity|].
  destruct (get_low_stock_products_listing admin_ctx four_products eq_refl)
    as (rows & Hrun & _ & _ & _ & Hexact & Hfour).
  assert (rows = [joined four_products (1, stocked 0 5 "bolt");
                  joined four_products (2, stocked 5 5 "nut")]) as Hrows
    by (by apply (Hfour _ _ _ _ _ _ _ _ four_products_rows)).
  split.
  - rewrite Hrun. by rewrite Hrows.
  - rewrite <- Hrows. apply Hexact. apply four_products_fit.
Defined.

(** C9 as stated fails: with quantities at the lower end of the 64-bit
    range the three differences are computed in binary64 and come out
    equal, so the rows are listed by name, alpha first, although the
    difference of alpha is greater than that of beta and gamma. *)
Lemma low_stock_overflow_order :
  match (get_low_stock_products admin_ctx overflowing_products).1 with
  | Ok rows =>
      (λ r, (row_id r, quantity (row r) - default 0 (min_stock_level (row r)))) <$> rows
  | Raise _ => []
  end
  = [(1, - 2 ^ 63 - 1); (2, - 2 ^ 63 - 2); (3, - 2 ^ 63 - 2)].
Proof. vm_compute. reflexivity. Qed.

Lemma update_product_unrecognized_ignored_witness :
  update_product admin_ctx 1 mixed_kwargs one_product
  = update_product admin_ctx 1 [("name"%string, PyStr (py "Gizmo"))] one_product
  ∧ update_product admin_ctx 1
      [("quantity"%string, PyInt 99); ("colour"%string, PyStr (py "red"))] one_product
    = (Ok false, one_product)
  ∧ (∃ p',
       update_product admin_ctx 1 mixed_kwargs one_product
       = (Ok true, with_products (<[1 := p']> (products one_product)) one_product)
       ∧ name p' = py "Gizmo"
       ∧ updated_at p' = current_timestamp admin_ctx
       ∧ quantity p' = 5)
  ∧ update_product (ctx_of None) 1 mixed_kwargs one_product = (Ok false, one_product)
  ∧ update_product admin_ctx 7 mixed_kwargs one_product = (Ok false, one_product)
  ∧ update_product admin_ctx 1 [("name"%string, PyNone)] one_product
    = (Ok false, one_product)
  ∧ update_product admin_ctx 2 [("sku"%string, PyStr (py "W-1"))] two_products
    = (Ok false, two_products)
  ∧ update_product failing_update_ctx 1 mixed_kwargs one_product
    = (Ok false, one_product).
Proof.
  split; [|split; [|split; [|split; [|split; [|split; [|split]]]]]].
  - exact (proj1 (update_product_unrecognized_ignored admin_ctx 1 mixed_kwargs
                    one_product)).
  - apply (proj1 (proj2 (update_product_unrecognized_ignored admin_ctx 1
                           [("quantity"%string, PyInt 99);
                            ("colour"%string, PyStr (py "red"))] one_product))).
    reflexivity.
  - destruct (update_product_unrecognized_ignored admin_ctx 1 mixed_kwargs one_product)
      as (_ & _ & Htrue & _).
    assert (filter (λ fv : string * PyVal, fv.1 ∈ valid_fields) mixed_kwargs ≠ [])
      as Hsome by compute_done.
    assert (NoDup mixed_kwargs.*1) as Hnd by compute_done.
    assert (Forall (λ fv : string * PyVal, binds fv.1 fv.2 = true)
              (filter (λ fv : string * PyVal, fv.1 ∈ valid_fields) mixed_kwargs))
      as Hbinds by compute_done.
    assert (products one_product !! 1 = Some widget) as Hw by (vm_compute; reflexivity).
    assert (∀ (s : str) (j : Z) (q : Product),
              ("sku"%string, PyStr s) ∈ mixed_kwargs →
              products one_product !! j = Some q → sku q = Some s → j = 1) as Hsku.
    { intros s j q Hin. unfold mixed_kwargs in Hin. by decompose_list_elem_of. }
    destruct (Htrue Hsome Hnd Hbinds eq_refl eq_refl widget Hw Hsku)
      as (p' & Hrun & Hget & Hstamp & Hframe).
    exists p'. split; [exact Hrun|]. split; [|split; [exact Hstamp|]].
    + assert (get_column "name" p' = stored_as "name" (PyStr (py "Gizmo"))) as Hname
        by (apply Hget; vm_compute; left).
      by injection Hname.
    + assert (get_column "quantity" p' = get_column "quantity" widget) as Hq
        by (apply Hframe; compute_done).
      by injection Hq.
  - destruct (update_product_unrecognized_ignored (ctx_of None) 1 mixed_kwargs
                one_product) as (_ & _ & _ & Hperm & _).
    apply Hperm. reflexivity.
  - destruct (update_product_unrecognized_ignored admin_ctx 7 mixed_kwargs one_product)
      as (_ & _ & _ & _ & Hid & _).
    apply Hid. vm_compute. reflexivity.
  - destruct (update_product_unrecognized_ignored admin_ctx 1
                [("name"%string, PyNone)] one_product)
      as (_ & _ & _ & _ & _ & Hname & _).
    apply Hname. left.
  - destruct (update_product_unrecognized_ignored admin_ctx 2
                [("sku"%string, PyStr (py "W-1"))] two_products)
      as (_ & _ & _ & _ & _ & _ & Hclash & _).
    apply (Hclash (py "W-1") 1
             (product_row admin_ctx (py "Widget") (Some 1) (py "W-1") None
                9.5%float 5 2 None)).
    + compute_done.
    + left.
    + done.
    + vm_compute. reflexivity.
    + reflexivity.
  - destruct (update_product_unrecognized_ignored failing_update_ctx 1 mixed_kwargs
                one_product) as (_ & _ & _ & _ & _ & _ & _ & Hfail).
    apply Hfail. reflexivity.
Defined.

(** C10 as stated fails: an administrator passes a recognized field, no
    statement fails for a reason of the store, and the call still returns
    [False] and writes nothing: for an id that no product has, for a name
    that is [None], and for a SKU that another product holds. *)
Lemma update_product_refused :
  update_product admin_ctx 7 [("name"%string, PyStr (py "Gizmo"))] one_product
  = (Ok false, one_product)
  ∧ update_product admin_ctx 1 [("name"%string, PyNone)] one_product
    = (Ok false, one_product)
  ∧ update_product admin_ctx 2 [("sku"%string, PyStr (py "W-1"))] two_products
    = (Ok false, two_products).
Proof. repeat split; vm_compute; reflexivity. Qed.
